(** * smartdispatch: command unfolding, naming and UID substitution

    A shallow embedding of [smartdispatch/smartdispatch.py].

    Python [str] values are [string]s of 8-bit characters, Python [int]s are
    [Z], lists are [list]s, [None] is [None] of an [option].  Code that can
    raise returns a [result].  The built-ins the module calls ([str.split],
    [str.strip], [str.replace], [str.join], slices, [itertools.product],
    [re.finditer]) are modelled in [Module Py].  The functions of
    [smartdispatch.utils] ([slugify], [encode_escaped_characters],
    [decode_escaped_characters], [generate_uid_from_string]) are parameters
    of the embedding. *)

From Stdlib Require Import String Ascii List ZArith Lia Bool Arith.
From Stdlib Require Import Numbers.DecimalString Numbers.DecimalZ.
Import ListNotations.

Local Open Scope string_scope.
Local Open Scope list_scope.

(** ** Exceptions *)

Inductive error : Type :=
| ValueError      (* a usage error raised by a template's [unfold] *)
| KeyError        (* [argument_templates[name]] for an unknown name *)
| StopIteration.  (* [next] over an exhausted generator *)

Inductive result (A : Type) : Type :=
| Ok (a : A)
| Raise (e : error).

Arguments Ok {A} a.
Arguments Raise {A} e.

Definition bind {A B : Type} (r : result A) (k : A -> result B) : result B :=
  match r with
  | Ok a => k a
  | Raise e => Raise e
  end.

Notation "x <- r ;; k" := (bind r (fun x => k))
  (at level 61, r at next level, right associativity).

(** ** Python built-ins *)

Module Py.

(** [c.isspace()] for an 8-bit [str]: space, [\t], [\n], [\v], [\f], [\r]. *)
Definition isspace (c : ascii) : bool :=
  let n := nat_of_ascii c in
  (((9 <=? n) && (n <=? 13)) || (n =? 32))%nat.

(** [s.split()]: the maximal runs of non-whitespace characters. *)
Fixpoint split_ws (s : string) : list string :=
  match s with
  | EmptyString => []
  | String c r =>
      if isspace c then split_ws r
      else match r with
           | EmptyString => [String c EmptyString]
           | String d _ =>
               if isspace d then String c EmptyString :: split_ws r
               else match split_ws r with
                    | w :: ws => String c w :: ws
                    | [] => [String c EmptyString]
                    end
           end
  end.

(** [s.split(sep)] for a non-empty [sep] (Python raises [ValueError] on an
    empty separator; every call in the module passes a literal).  [skip]
    counts the characters of a separator occurrence still to be passed. *)
Fixpoint split_from (sep s : string) (skip : nat) {struct s} : list string :=
  match s with
  | EmptyString => [EmptyString]
  | String c r =>
      match skip with
      | S k => split_from sep r k
      | O =>
          if prefix sep s
          then EmptyString :: split_from sep r (String.length sep - 1)
          else match split_from sep r 0 with
               | p :: ps => String c p :: ps
               | [] => [String c EmptyString]
               end
      end
  end.

Definition split (sep s : string) : list string := split_from sep s 0.

(** [sep.join(pieces)]. *)
Definition join (sep : string) (pieces : list string) : string :=
  String.concat sep pieces.

(** [s.lstrip()], [s.rstrip()] and [s.strip()]. *)
Fixpoint lstrip (s : string) : string :=
  match s with
  | EmptyString => EmptyString
  | String c r => if isspace c then lstrip r else s
  end.

Fixpoint rstrip (s : string) : string :=
  match s with
  | EmptyString => EmptyString
  | String c r =>
      match rstrip r with
      | EmptyString => if isspace c then EmptyString else String c EmptyString
      | r' => String c r'
      end
  end.

Definition strip (s : string) : string := rstrip (lstrip s).

(** [s.replace(old, new)]: every occurrence of [old], found from the left
    and not overlapping, becomes [new]. *)
Fixpoint replace_from (old new s : string) (skip : nat) {struct s} : string :=
  match s with
  | EmptyString => EmptyString
  | String c r =>
      match skip with
      | S k => replace_from old new r k
      | O =>
          if prefix old s
          then new ++ replace_from old new r (String.length old - 1)
          else String c (replace_from old new r 0)
      end
  end.

Fixpoint intersperse (new s : string) : string :=
  match s with
  | EmptyString => EmptyString
  | String c r => String c (new ++ intersperse new r)
  end.

Definition replace (old new s : string) : string :=
  match old with
  | EmptyString => new ++ intersperse new s
  | _ => replace_from old new s 0
  end.

(** Slices.  An index [None] is an omitted bound; a negative index counts
    from the end; indexes are clamped to [0 .. len(s)]. *)
Definition clamp (len : nat) (i : Z) : nat :=
  if (i <? 0)%Z then Z.to_nat (Z.max 0 (Z.of_nat len + i))
  else Nat.min (Z.to_nat i) len.

(** [s[lo:hi]] for indexes already in range. *)
Definition slice (s : string) (lo hi : nat) : string := substring lo (hi - lo) s.

(** [s[start:]]. *)
Definition slice_from (s : string) (start : option Z) : string :=
  match start with
  | None => s
  | Some i => let lo := clamp (String.length s) i in
              slice s lo (String.length s)
  end.

(** [s[:stop]]. *)
Definition slice_to (s : string) (stop : option Z) : string :=
  match stop with
  | None => s
  | Some j => slice s 0 (clamp (String.length s) j)
  end.

(** [itertools.product] over the pools, as the library documents it:
    [result = [[]]; for pool in pools: result = [x+[y] for x in result for y in pool]]. *)
Definition product_step {A : Type} (result : list (list A)) (pool : list A)
  : list (list A) :=
  flat_map (fun x => map (fun y => x ++ [y]) pool) result.

Definition product {A : Type} (pools : list (list A)) : list (list A) :=
  fold_left product_step pools [[]].

(** [range(start, stop, step)] for a non-zero [step]: [len] elements
    [start + i*step]. *)
Definition range_len (start stop step : Z) : nat :=
  if (0 <? step)%Z then
    if (start <? stop)%Z then Z.to_nat ((stop - start - 1) / step + 1) else 0
  else
    if (stop <? start)%Z then Z.to_nat ((start - stop - 1) / (- step) + 1) else 0.

Definition range (start stop step : Z) : list Z :=
  map (fun i => (start + Z.of_nat i * step)%Z) (seq 0 (range_len start stop step)).

(** [time.strftime("%Y-%m-%d_%H-%M-%S_")]: the local time the call reads,
    with [%Y] the year and the other fields zero-padded to two digits. *)
Record struct_time : Type := {
  tm_year : nat; tm_mon : nat; tm_mday : nat;
  tm_hour : nat; tm_min : nat; tm_sec : nat
}.

Definition digits (n : nat) : string := NilZero.string_of_uint (Nat.to_uint n).

Definition pad2 (n : nat) : string :=
  if (n <? 10)%nat then "0" ++ digits n else digits n.

Definition strftime_Ymd_HMS (t : struct_time) : string :=
  digits (tm_year t) ++ "-" ++ pad2 (tm_mon t) ++ "-" ++ pad2 (tm_mday t) ++ "_"
  ++ pad2 (tm_hour t) ++ "-" ++ pad2 (tm_min t) ++ "-" ++ pad2 (tm_sec t) ++ "_".

(** [os.path.join(a, b)] of [posixpath]: an absolute [b] replaces [a];
    otherwise [b] follows [a], after a [/] unless [a] is empty or ends
    with one. *)
Definition startswith_slash (s : string) : bool :=
  match s with
  | String c _ => Ascii.eqb c "/"
  | EmptyString => false
  end.

Fixpoint endswith_slash (s : string) : bool :=
  match s with
  | EmptyString => false
  | String c EmptyString => Ascii.eqb c "/"
  | String _ r => endswith_slash r
  end.

Definition path_join (a b : string) : string :=
  if startswith_slash b then b
  else if String.eqb a EmptyString || endswith_slash a then (a ++ b)%string
  else (a ++ "/" ++ b)%string.

(** [str(n)] and [int(s)] for decimal integers. *)
Definition str (n : Z) : string := NilZero.string_of_int (Z.to_int n).

Definition int (s : string) : option Z :=
  option_map Z.of_int (NilZero.int_of_string s).

End Py.

(** ** smartdispatch/smartdispatch.py *)

Module SmartDispatch.

Definition UID_TAG : string := "{UID}".

(** An entry of [argument_templates].  [regex] stands for the entry's
    pattern tried at the start of a text: the length of the text it matches
    there, if it matches.  The patterns of the registry match no empty
    text. *)
Record ArgumentTemplate : Type := {
  regex : string -> option nat;
  unfold : string -> result (list string)
}.

(** [argument_templates]: an ordered mapping from names to templates. *)
Definition registry : Type := list (string * ArgumentTemplate).

Fixpoint lookup (name : string) (templates : registry) : option ArgumentTemplate :=
  match templates with
  | [] => None
  | (k, arg) :: rest => if String.eqb k name then Some arg else lookup name rest
  end.

(** The master regex ["(" + "|".join("(?P<name>regex)" ...) + ")"] tried at
    the start of [text]: the first alternative that matches there wins, and
    its name is the one group of [groupdict()] that is not [None]. *)
Fixpoint master_regex (templates : registry) (text : string)
  : option (string * nat) :=
  match templates with
  | [] => None
  | (name, arg) :: rest =>
      match regex arg text with
      | Some len => Some (name, len)
      | None => master_regex rest text
      end
  end.

(** A match object: [match.start()], [match.end()] and the name of the
    alternative that matched. *)
Record Match : Type := {
  m_start : nat;
  m_end : nat;
  m_name : string
}.

(** [re.finditer(regex, text)]: the matches from the left, not overlapping.
    [text] is what remains at position [pos]; [skip] counts the characters
    of the last match still to be passed. *)
Fixpoint finditer_from (templates : registry) (text : string) (pos skip : nat)
  {struct text} : list Match :=
  match skip with
  | S k =>
      match text with
      | EmptyString => []
      | String _ rest => finditer_from templates rest (S pos) k
      end
  | O =>
      match master_regex templates text with
      | Some (name, len) =>
          {| m_start := pos; m_end := pos + len; m_name := name |}
          :: match text with
             | EmptyString => []
             | String _ rest => finditer_from templates rest (S pos) (len - 1)
             end
      | None =>
          match text with
          | EmptyString => []
          | String _ rest => finditer_from templates rest (S pos) 0
          end
      end
  end.

Definition finditer (templates : registry) (text : string) : list Match :=
  finditer_from templates text 0 0.

Section Collaborators.

(** The functions of [smartdispatch.utils] and the registry of
    [smartdispatch.argument_template] the module imports. *)
Variable slugify : string -> string.
Variable encode_escaped_characters : string -> string.
Variable decode_escaped_characters : string -> string.
Variable generate_uid_from_string : string -> string.
Variable argument_templates : registry.

(** [generate_name_from_command]; [now] is the time [strftime] reads. *)
Definition generate_name_from_command (now : Py.struct_time) (command : string)
    (max_length_arg max_length : option Z) : string :=
  let max_length_arg :=
    match max_length_arg with
    | Some m => Some (Z.min (- m) m)
    | None => None
    end in
  let name := Py.strftime_Ymd_HMS now in
  let name :=
    (name ++ Py.join "_"
               (map (fun argvalue => Py.slice_from (slugify argvalue) max_length_arg)
                    (Py.split_ws command)))%string in
  Py.slice_to name max_length.

(** [get_commands_from_file]; [fileobj] is what [fileobj.read()] returns. *)
Definition get_commands_from_file (fileobj : string) : list string :=
  Py.split (String "010" EmptyString) (Py.strip fileobj).

(** The loop of [unfold_command] over the matches: [pos] and [arguments]
    are the loop's variables. *)
Fixpoint unfold_matches (text : string) (matches : list Match) (pos : nat)
    (arguments : list (list string)) : result (list (list string)) :=
  match matches with
  | [] => Ok (arguments ++ [[Py.slice text pos (String.length text)]])
  | m :: rest =>
      let arguments := arguments ++ [[Py.slice text pos (m_start m)]] in
      let matched_text := Py.slice text (m_start m) (m_end m) in
      match lookup (m_name m) argument_templates with
      | None => Raise KeyError
      | Some arg =>
          unfolded <- unfold arg matched_text ;;
          unfold_matches text rest (m_end m) (arguments ++ [unfolded])
      end
  end.

(** [unfold_command].  With an empty registry the master regex is ["()"],
    which matches at position 0 with an empty [groupdict()]: [next]
    raises. *)
Definition unfold_command (command : string) : result (list string) :=
  let text := encode_escaped_characters command in
  match argument_templates with
  | [] => Raise StopIteration
  | _ =>
      arguments <- unfold_matches text (finditer argument_templates text) 0 [] ;;
      let arguments := map (map decode_escaped_characters) arguments in
      Ok (map (Py.join EmptyString) (Py.product arguments))
  end.

(** [replace_uid_tag]. *)
Definition replace_uid_tag (commands : list string) : list string :=
  map (fun command => Py.replace "{UID}" (generate_uid_from_string command) command)
      commands.

(** What [get_available_queues] reads: the values of a JSON file, the
    directory of the package ([os.path.split(smartdispatch.__file__)[0]]),
    [os.path.isfile] and [utils.load_dict_from_json_file]. *)
Variable json : Type.
Variable smartdispatch_dir : string.
Variable isfile : string -> bool.
Variable load_dict_from_json_file : string -> result (list (string * json)).

(** [get_available_queues]; a dictionary is the list of its items, [{}] the
    empty list. *)
Definition get_available_queues (cluster_name : option string)
  : result (list (string * json)) :=
  match cluster_name with
  | None => Ok []
  | Some cluster_name =>
      let config_dir := Py.path_join smartdispatch_dir "config" in
      let config_filename := (cluster_name ++ ".json")%string in
      let config_filepath := Py.path_join config_dir config_filename in
      if negb (isfile config_filepath) then Ok []
      else
        queues_infos <- load_dict_from_json_file config_filepath ;;
        Ok queues_infos
  end.

End Collaborators.

End SmartDispatch.

(** ** smartdispatch/argument_template.py

    The module is not among the sources: its two templates and its registry
    are modelled from sections 3 and 4.1 of the specification. *)

Module ArgumentTemplates.

Import SmartDispatch.

Definition isdigit (c : ascii) : bool :=
  let n := nat_of_ascii c in ((48 <=? n) && (n <=? 57))%nat.

Definition isbracket (c : ascii) : bool :=
  (Ascii.eqb c "[" || Ascii.eqb c "]")%char.

(** The longest prefix of [s] whose characters satisfy [p], and the rest. *)
Fixpoint span (p : ascii -> bool) (s : string) : string * string :=
  match s with
  | EmptyString => (EmptyString, EmptyString)
  | String c r =>
      if p c then let (a, b) := span p r in (String c a, b)
      else (EmptyString, s)
  end.

(** Modelled from the spec: the module [smartdispatch.argument_template] is
    missing; section 4.1 gives the range syntax [[start:end]] or
    [[start:end:step]] with integer fields.  An integer is read as an
    optional minus sign and one or more decimal digits. *)
Definition scan_integer (s : string) : option (string * string) :=
  let (sign, r) :=
    match s with
    | String c r => if Ascii.eqb c "-" then ("-", r) else (EmptyString, s)
    | EmptyString => (EmptyString, s)
    end in
  let (ds, rest) := span isdigit r in
  match ds with
  | EmptyString => None
  | _ => Some ((sign ++ ds)%string, rest)
  end.

(** Modelled from the spec: the range pattern of the missing module, read at
    the start of [text]: the three fields as written ([None] for an omitted
    step) and the text after the closing bracket. *)
Definition scan_range (text : string)
  : option (string * string * option string * string) :=
  match text with
  | String "["%char r0 =>
      match scan_integer r0 with
      | Some (start, String ":"%char r1) =>
          match scan_integer r1 with
          | Some (stop, String "]"%char r2) => Some (start, stop, None, r2)
          | Some (stop, String ":"%char r2) =>
              match scan_integer r2 with
              | Some (step, String "]"%char r3) => Some (start, stop, Some step, r3)
              | _ => None
              end
          | _ => None
          end
      | _ => None
      end
  | _ => None
  end.

Definition range_regex (text : string) : option nat :=
  match scan_range text with
  | Some (_, _, _, rest) => Some (String.length text - String.length rest)
  | None => None
  end.

(** Modelled from the spec: the fields of a matched range as integers, the
    step 1 when omitted (section 4.1). *)
Definition parse_range (matched : string) : option (Z * Z * Z) :=
  match scan_range matched with
  | Some (start, stop, step, EmptyString) =>
      match Py.int start, Py.int stop, step with
      | Some a, Some b, None => Some (a, b, 1%Z)
      | Some a, Some b, Some step =>
          match Py.int step with
          | Some c => Some (a, b, c)
          | None => None
          end
      | _, _, _ => None
      end
  | _ => None
  end.

(** Modelled from the spec: the integers of a range, from [start] to [stop]
    inclusive by [step]: Python's [range] with the bound moved one past
    [stop] in the direction of the step.  A zero step is a usage error
    (section 7). *)
Definition range_values (start stop step : Z) : result (list Z) :=
  if (step =? 0)%Z then Raise ValueError
  else if (0 <? step)%Z then Ok (Py.range start (stop + 1) step)
  else Ok (Py.range start (stop - 1) step).

(** Modelled from the spec: [unfold] of the range template of the missing
    module; every integer is rendered in decimal (section 4.1). *)
Definition range_unfold (matched : string) : result (list string) :=
  match parse_range matched with
  | None => Raise ValueError
  | Some (start, stop, step) =>
      values <- range_values start stop step ;;
      Ok (map Py.str values)
  end.

Definition RangeArgumentTemplate : ArgumentTemplate :=
  {| regex := range_regex; unfold := range_unfold |}.

(** Modelled from the spec: the list pattern of the missing module,
    [[item1 item2 ... itemN]] (section 4.1): between the brackets, items
    without whitespace or brackets, separated by whitespace.  The result is
    the text between the brackets and the text after the closing one. *)
Definition scan_list (text : string) : option (string * string) :=
  match text with
  | String "["%char r =>
      let (body, rest) := span (fun c => negb (isbracket c)) r in
      match rest with
      | String "]"%char rest' =>
          if negb (String.eqb body EmptyString) && String.eqb (Py.strip body) body
          then Some (body, rest')
          else None
      | _ => None
      end
  | _ => None
  end.

Definition list_regex (text : string) : option nat :=
  match scan_list text with
  | Some (_, rest) => Some (String.length text - String.length rest)
  | None => None
  end.

(** Modelled from the spec: [unfold] of the list template of the missing
    module: the items in the order written (section 4.1). *)
Definition list_unfold (matched : string) : result (list string) :=
  match scan_list matched with
  | Some (body, EmptyString) => Ok (Py.split_ws body)
  | _ => Raise ValueError
  end.

Definition ListArgumentTemplate : ArgumentTemplate :=
  {| regex := list_regex; unfold := list_unfold |}.

(** Modelled from the spec: the registry of the missing module, with the two
    kinds of section 4.1.  The first alternative that matches wins
    (section 3), and a range reads as a one-item list too: the range
    template comes first, as the end-to-end example of section 8 needs. *)
Definition argument_templates : registry :=
  [ ("range", RangeArgumentTemplate); ("list", ListArgumentTemplate) ].

End ArgumentTemplates.

(** * Notions used to state the properties *)

(** The product by recursion on the pools: the first pool varies slowest,
    the last one fastest. *)
Fixpoint combinations {A : Type} (pools : list (list A)) : list (list A) :=
  match pools with
  | [] => [[]]
  | pool :: rest =>
      flat_map (fun y => map (cons y) (combinations rest)) pool
  end.

(** The segment sequence of a text for the matches found from [pos] on: a
    literal segment before each match, the alternatives of the match, and
    the literal segment after the last match. *)
Fixpoint segments (templates : SmartDispatch.registry) (text : string)
    (matches : list SmartDispatch.Match) (pos : nat)
  : result (list (list string)) :=
  match matches with
  | [] => Ok [[Py.slice text pos (String.length text)]]
  | m :: rest =>
      match SmartDispatch.lookup (SmartDispatch.m_name m) templates with
      | None => Raise KeyError
      | Some arg =>
          unfolded <- SmartDispatch.unfold arg
                        (Py.slice text (SmartDispatch.m_start m) (SmartDispatch.m_end m)) ;;
          segs <- segments templates text rest (SmartDispatch.m_end m) ;;
          Ok ([Py.slice text pos (SmartDispatch.m_start m)] :: unfolded :: segs)
      end
  end.

(** The alternatives a match unfolds to. *)
Definition alternatives (templates : SmartDispatch.registry) (text : string)
    (m : SmartDispatch.Match) : result (list string) :=
  match SmartDispatch.lookup (SmartDispatch.m_name m) templates with
  | None => Raise KeyError
  | Some arg =>
      SmartDispatch.unfold arg
        (Py.slice text (SmartDispatch.m_start m) (SmartDispatch.m_end m))
  end.

(** [suf] is what remains of [text] from some position on. *)
Definition suffix_of (suf text : string) : Prop :=
  exists pre : string, text = (pre ++ suf)%string.

(** A codec that escapes nothing: how the two escaping functions act on a
    text that holds no escape marker. *)
Definition plain (s : string) : string := s.

(** No template of the registry recognises a folded argument at any position
    of [text]. *)
Fixpoint recognised_nowhere (templates : SmartDispatch.registry) (text : string)
  : bool :=
  match SmartDispatch.master_regex templates text with
  | Some _ => false
  | None =>
      match text with
      | EmptyString => true
      | String _ rest => recognised_nowhere templates rest
      end
  end.

(** The match unfolds without an error. *)
Definition unfolds (templates : SmartDispatch.registry) (text : string)
    (m : SmartDispatch.Match) : bool :=
  match alternatives templates text m with
  | Ok _ => true
  | Raise _ => false
  end.


(** The step of a range has the wrong sign to reach [stop] from [start]. *)
Definition wrong_sign (start stop step : Z) : Prop :=
  (0 < step /\ stop < start)%Z \/ (step < 0 /\ start < stop)%Z.

(** [x] is met when counting from [start] by [step] without passing [stop]. *)
Definition reached (start stop step x : Z) : Prop :=
  exists k : Z,
    (0 <= k)%Z /\ x = (start + k * step)%Z
    /\ (if (0 <? step)%Z then (x <= stop)%Z else (stop <= x)%Z).

(** [sub] occurs in [s]: it is a prefix of what remains at some position. *)
Fixpoint occurs (sub s : string) : bool :=
  prefix sub s
  || match s with
     | EmptyString => false
     | String _ rest => occurs sub rest
     end.

(** A text that does not hold [sep], followed by [sep], holds no occurrence
    of [sep] before that one. *)
Definition unbordered (sep : string) : Prop :=
  forall (c : ascii) (q r : string),
    occurs sep (String c q) = false ->
    prefix sep (String c q ++ sep ++ r)%string = false.

(** The text holds whitespace only. *)
Fixpoint blank (s : string) : bool :=
  match s with
  | EmptyString => true
  | String c rest => Py.isspace c && blank rest
  end.

(** The line feed, the separator of the commands of a file. *)
Definition LF : string := String "010" EmptyString.

(** An identifier function to run [replace_uid_tag] on examples: the length
    of the text, in decimal. *)
Definition length_uid (s : string) : string :=
  Py.str (Z.of_nat (String.length s)).

(** Every character of the text satisfies [p]. *)
Fixpoint every (p : ascii -> bool) (s : string) : bool :=
  match s with
  | EmptyString => true
  | String c rest => p c && every p rest
  end.

(** The text is empty or starts with a character that does not satisfy [p]. *)
Definition stops (p : ascii -> bool) (s : string) : Prop :=
  match s with
  | EmptyString => True
  | String c _ => p c = false
  end.

(** A range folded argument as written, the integers in decimal. *)
Definition range_text (start stop : Z) (step : option Z) : string :=
  ("[" ++ Py.str start ++ ":" ++ Py.str stop
   ++ match step with
      | None => "]"
      | Some c => ":" ++ Py.str c ++ "]"
      end)%string.

(** The alternatives of the matches, from the left; the error of the first
    match that does not unfold. *)
Fixpoint unfold_all (templates : SmartDispatch.registry) (text : string)
    (matches : list SmartDispatch.Match) : result (list (list string)) :=
  match matches with
  | [] => Ok []
  | m :: rest =>
      alts <- alternatives templates text m ;;
      others <- unfold_all templates text rest ;;
      Ok (alts :: others)
  end.

(** The text with the matched folded arguments replaced by [picks], one for
    each match, from position [pos] on. *)
Fixpoint substitute (text : string) (matches : list SmartDispatch.Match)
    (picks : list string) (pos : nat) : list string :=
  match matches, picks with
  | m :: rest, pick :: picks' =>
      Py.slice text pos (SmartDispatch.m_start m) :: pick
      :: substitute text rest picks' (SmartDispatch.m_end m)
  | _, _ => [Py.slice text pos (String.length text)]
  end.

(** The matches follow one another from [pos] on without overlap, and start
    within the first [len] characters. *)
Fixpoint chained (pos : nat) (matches : list SmartDispatch.Match) (len : nat)
  : Prop :=
  match matches with
  | [] => True
  | m :: rest =>
      pos <= SmartDispatch.m_start m
      /\ SmartDispatch.m_start m <= SmartDispatch.m_end m
      /\ SmartDispatch.m_start m <= len
      /\ chained (SmartDispatch.m_end m) rest len
  end.

(** A template that recognises what [regex] does and unfolds a folded
    argument to itself alone. *)
Definition verbatim (regex : string -> option nat) : SmartDispatch.ArgumentTemplate :=
  {| SmartDispatch.regex := regex;
     SmartDispatch.unfold := fun matched => Ok [matched] |}.

(** The text of a match. *)
Definition matched_text (text : string) (m : SmartDispatch.Match) : string :=
  Py.slice text (SmartDispatch.m_start m) (SmartDispatch.m_end m).

(** The match ends within the text and unfolds to its own text alone. *)
Definition stands_for_itself (templates : SmartDispatch.registry) (text : string)
    (m : SmartDispatch.Match) : bool :=
  (SmartDispatch.m_end m <=? String.length text)%nat
  && match alternatives templates text m with
     | Ok [a] => String.eqb a (matched_text text m)
     | _ => false
     end.

(** A character of the tag [{UID}]. *)
Definition tag_character (c : ascii) : bool :=
  (Ascii.eqb c "{" || Ascii.eqb c "U" || Ascii.eqb c "I" || Ascii.eqb c "D"
   || Ascii.eqb c "}")%char.

(** An identifier that is not empty and holds no character of the tag, as a
    hexadecimal digest does. *)
Definition clean_identifier (u : string) : bool :=
  negb (String.eqb u EmptyString) && every (fun c => negb (tag_character c)) u.

(** The number of line feeds of a text. *)
Fixpoint count_LF (s : string) : nat :=
  match s with
  | EmptyString => 0
  | String c rest => (if Ascii.eqb c "010" then 1 else 0) + count_LF rest
  end.

(** The text starts, or ends, with a character that is not whitespace. *)
Definition starts_with_text (s : string) : Prop :=
  exists c r, s = String c r /\ Py.isspace c = false.

Definition ends_with_text (s : string) : Prop :=
  exists r c, s = (r ++ String c EmptyString)%string /\ Py.isspace c = false.

(** The last [n] characters of a text, the whole text when it has no more. *)
Definition last_characters (n : nat) (s : string) : string :=
  substring (String.length s - n) n s.

(** A time of the years 1000 to 9999. *)
Definition four_digit_year (t : Py.struct_time) : bool :=
  ((1000 <=? Py.tm_year t) && (Py.tm_year t <? 10 * 1000)
   && (1 <=? Py.tm_mon t) && (Py.tm_mon t <=? 12)
   && (1 <=? Py.tm_mday t) && (Py.tm_mday t <=? 31)
   && (Py.tm_hour t <=? 23) && (Py.tm_min t <=? 59)
   && (Py.tm_sec t <=? 61))%nat.

(** * Properties *)

Import SmartDispatch ArgumentTemplates.

(** ** Strings: [split], [join] and [replace] *)

Section Strings.

Local Open Scope string_scope.

Lemma append_nil_r (s : string) : s ++ EmptyString = s.
Proof. induction s as [|c s IH]; simpl; [reflexivity|now rewrite IH]. Qed.

Lemma append_assoc (a b c : string) : (a ++ b) ++ c = a ++ b ++ c.
Proof. induction a as [|x a IH]; simpl; [reflexivity|now rewrite IH]. Qed.

Lemma length_append (a b : string) :
  String.length (a ++ b) = String.length a + String.length b.
Proof. induction a as [|x a IH]; simpl; [reflexivity|now rewrite IH]. Qed.

Lemma prefix_append (a r : string) : prefix a (a ++ r) = true.
Proof.
  induction a as [|x a IH]; simpl; [now destruct r|].
  destruct (ascii_dec x x); [exact IH|congruence].
Qed.

Lemma prefix_inv (a : string) :
  forall s, prefix a s = true -> exists r, s = a ++ r.
Proof.
  induction a as [|x a IH]; intros s H.
  - exists s. reflexivity.
  - destruct s as [|y s]; simpl in H; [discriminate|].
    destruct (ascii_dec x y) as [->|]; [|discriminate].
    destruct (IH s H) as [r ->]. exists r. reflexivity.
Qed.

Lemma prefix_extend (a s t : string) :
  prefix a s = true -> prefix a (s ++ t) = true.
Proof.
  intros H. destruct (prefix_inv a s H) as [r ->].
  rewrite append_assoc. apply prefix_append.
Qed.

Lemma prefix_nil_r (a : string) : a <> EmptyString -> prefix a EmptyString = false.
Proof. destruct a; [congruence|reflexivity]. Qed.

Lemma split_from_skip (sep t r : string) :
  Py.split_from sep (t ++ r) (String.length t) = Py.split_from sep r 0.
Proof. induction t as [|c t IH]; simpl; [reflexivity|exact IH]. Qed.

Lemma replace_from_skip (old new t r : string) :
  Py.replace_from old new (t ++ r) (String.length t)
  = Py.replace_from old new r 0.
Proof. induction t as [|c t IH]; simpl; [reflexivity|exact IH]. Qed.

Lemma split_from_nonempty (sep s : string) (k : nat) :
  Py.split_from sep s k <> [].
Proof.
  revert k. induction s as [|c s IH]; intros k; cbn [Py.split_from];
    [discriminate|].
  destruct k; [|apply IH].
  destruct (prefix sep (String c s)); [discriminate|].
  destruct (Py.split_from sep s 0); discriminate.
Qed.

(** The two steps of [split] at the start of a text. *)
Lemma split_at_separator (sep r : string) :
  sep <> EmptyString ->
  Py.split_from sep (sep ++ r) 0 = EmptyString :: Py.split_from sep r 0.
Proof.
  intros Hsep. destruct sep as [|c sep]; [congruence|].
  change (String c sep ++ r) with (String c (sep ++ r)).
  cbn [Py.split_from].
  change (String c (sep ++ r)) with (String c sep ++ r).
  rewrite prefix_append. cbn [String.length].
  replace (S (String.length sep) - 1) with (String.length sep) by lia.
  now rewrite split_from_skip.
Qed.

Lemma split_at_character (sep : string) (c : ascii) (r : string) :
  prefix sep (String c r) = false ->
  exists p ps,
    Py.split_from sep r 0 = p :: ps
    /\ Py.split_from sep (String c r) 0 = String c p :: ps.
Proof.
  intros H. cbn [Py.split_from]. rewrite H.
  destruct (Py.split_from sep r 0) as [|p ps] eqn:E.
  - now apply split_from_nonempty in E.
  - exists p, ps. split; reflexivity.
Qed.

Lemma replace_at_separator (old new r : string) :
  old <> EmptyString ->
  Py.replace_from old new (old ++ r) 0 = new ++ Py.replace_from old new r 0.
Proof.
  intros Hold. destruct old as [|c old]; [congruence|].
  change (String c old ++ r) with (String c (old ++ r)).
  cbn [Py.replace_from].
  change (String c (old ++ r)) with (String c old ++ r).
  rewrite prefix_append. cbn [String.length].
  replace (S (String.length old) - 1) with (String.length old) by lia.
  now rewrite replace_from_skip.
Qed.

Lemma join_cons_character (sep : string) (c : ascii) (p : string) (ps : list string) :
  Py.join sep (String c p :: ps) = String c (Py.join sep (p :: ps)).
Proof. unfold Py.join. simpl. destruct ps; reflexivity. Qed.

Lemma join_cons_empty (sep : string) (ps : list string) :
  ps <> [] -> Py.join sep (EmptyString :: ps) = sep ++ Py.join sep ps.
Proof. unfold Py.join. destruct ps; [congruence|reflexivity]. Qed.

Lemma join_cons (sep p : string) (ps : list string) :
  ps <> [] -> Py.join sep (p :: ps) = p ++ sep ++ Py.join sep ps.
Proof. unfold Py.join. destruct ps; [congruence|reflexivity]. Qed.

(** Induction on a text by the two steps of a scan for [sep]. *)
Lemma scan_ind (sep : string) (Hsep : sep <> EmptyString) (P : string -> Prop) :
  P EmptyString ->
  (forall r, P r -> P (sep ++ r)) ->
  (forall c r, prefix sep (String c r) = false -> P r -> P (String c r)) ->
  forall s, P s.
Proof.
  intros Hnil Hsepstep Hchar s.
  assert (H : forall n s, String.length s <= n -> P s).
  { clear s. induction n as [|n IH]; intros s Hlen.
    - destruct s; [exact Hnil|simpl in Hlen; lia].
    - destruct s as [|c r]; [exact Hnil|].
      destruct (prefix sep (String c r)) eqn:Hp.
      + destruct (prefix_inv _ _ Hp) as [r' Hr']. rewrite Hr'.
        apply Hsepstep, IH.
        apply (f_equal String.length) in Hr'.
        rewrite length_append in Hr'. simpl in Hr', Hlen.
        destruct sep; [congruence|simpl in Hr'; lia].
      + apply Hchar; [exact Hp|]. apply IH. simpl in Hlen. lia. }
  apply (H (String.length s)). lia.
Qed.

Lemma join_split (sep s : string) :
  sep <> EmptyString -> Py.join sep (Py.split sep s) = s.
Proof.
  intros Hsep. unfold Py.split.
  induction s as [|r IH|c r Hp IH] using (scan_ind sep Hsep).
  - reflexivity.
  - rewrite split_at_separator by assumption.
    rewrite join_cons_empty by apply split_from_nonempty.
    now rewrite IH.
  - destruct (split_at_character sep c r Hp) as [p [ps [E ->]]].
    rewrite join_cons_character. rewrite E in IH. now rewrite IH.
Qed.

Lemma occurs_nil (sep : string) : sep <> EmptyString -> occurs sep EmptyString = false.
Proof. destruct sep; [congruence|reflexivity]. Qed.

Lemma split_pieces_free (sep s : string) :
  sep <> EmptyString -> Forall (fun p => occurs sep p = false) (Py.split sep s).
Proof.
  intros Hsep. unfold Py.split.
  induction s as [|r IH|c r Hp IH] using (scan_ind sep Hsep).
  - repeat constructor. now apply occurs_nil.
  - rewrite split_at_separator by assumption.
    constructor; [now apply occurs_nil|exact IH].
  - destruct (split_at_character sep c r Hp) as [p [ps [E ->]]].
    rewrite E in IH. inversion IH as [|? ? Hfree Hrest]; subst.
    constructor; [|exact Hrest].
    cbn [occurs]. rewrite Hfree, orb_false_r.
    destruct (prefix sep (String c p)) eqn:Hpre; [|reflexivity].
    assert (Hr : r = Py.join sep (p :: ps))
      by (rewrite <- E; symmetry; now apply (join_split sep r)).
    destruct ps as [|p' ps].
    + simpl in Hr. subst r. congruence.
    + rewrite join_cons in Hr by discriminate. subst r.
      change (String c (p ++ sep ++ Py.join sep (p' :: ps)))
        with (String c p ++ sep ++ Py.join sep (p' :: ps)) in Hp.
      rewrite prefix_extend in Hp by assumption. discriminate.
Qed.

Lemma replace_join_split (old new s : string) :
  old <> EmptyString -> Py.replace old new s = Py.join new (Py.split old s).
Proof.
  intros Hold. unfold Py.replace, Py.split.
  destruct old as [|o old'] eqn:Eold; [congruence|]. rewrite <- Eold in *.
  clear Eold o old'.
  induction s as [|r IH|c r Hp IH] using (scan_ind old Hold).
  - reflexivity.
  - rewrite replace_at_separator, split_at_separator by assumption.
    rewrite IH. destruct (Py.split_from old r 0) eqn:E.
    + now apply split_from_nonempty in E.
    + reflexivity.
  - destruct (split_at_character old c r Hp) as [p [ps [E ->]]].
    cbn [Py.replace_from]. rewrite Hp, IH, E.
    now rewrite join_cons_character.
Qed.

End Strings.

Section SplitJoin.

Local Open Scope string_scope.

Variable sep : string.
Hypothesis sep_nonempty : sep <> EmptyString.
Hypothesis sep_unbordered : unbordered sep.

Lemma split_piece (p : string) :
  occurs sep p = false ->
  Py.split_from sep p 0 = [p]
  /\ (forall r, Py.split_from sep (p ++ sep ++ r) 0 = p :: Py.split_from sep r 0).
Proof.
  induction p as [|c p IH]; intros Hfree.
  - split; [reflexivity|]. intros r.
    change (EmptyString ++ sep ++ r) with (sep ++ r). now apply split_at_separator.
  - pose proof (sep_unbordered c p) as Hunb. specialize (Hunb) with (1 := Hfree).
    cbn [occurs] in Hfree. apply orb_false_iff in Hfree as [Hpre Hfree].
    destruct (IH Hfree) as [IH1 IH2]. split.
    + cbn [Py.split_from]. now rewrite Hpre, IH1.
    + intros r. specialize (Hunb r).
      change (String c p ++ sep ++ r) with (String c (p ++ sep ++ r)) in *.
      cbn [Py.split_from]. now rewrite Hunb, IH2.
Qed.

Lemma split_join (pieces : list string) :
  pieces <> [] ->
  Forall (fun p => occurs sep p = false) pieces ->
  Py.split sep (Py.join sep pieces) = pieces.
Proof.
  unfold Py.split.
  induction pieces as [|p ps IH]; intros Hne Hfree; [congruence|].
  inversion Hfree as [|? ? Hp Hps]; subst.
  destruct (split_piece p Hp) as [H1 H2].
  destruct ps as [|p' ps].
  - exact H1.
  - rewrite join_cons by discriminate.
    rewrite H2, IH; [reflexivity|discriminate|assumption].
Qed.

End SplitJoin.

Lemma newline_unbordered : unbordered (String "010" EmptyString).
Proof.
  intros c q r H. cbn [occurs] in H. apply orb_false_iff in H as [H _].
  cbn [prefix append] in *. destruct (ascii_dec "010" c); [|reflexivity].
  now destruct q.
Qed.

Lemma UID_TAG_unbordered : unbordered UID_TAG.
Proof.
  intros c q r H. cbn [occurs] in H. apply orb_false_iff in H as [H _].
  revert H. unfold UID_TAG.
  destruct q as [|c2 [|c3 [|c4 [|c5 q]]]]; cbn [prefix append];
    repeat match goal with
           | |- context [ascii_dec ?a ?b] =>
               destruct (ascii_dec a b); try discriminate; try reflexivity
           end; auto.
  destruct q; discriminate.
Qed.

(** ** Cartesian product *)

Section Product.

Context {A : Type}.

Lemma flat_map_map_inner (B C D : Type) (f : C -> D) (g : B -> list C) (l : list B) :
  map f (flat_map g l) = flat_map (fun x => map f (g x)) l.
Proof.
  induction l as [|x l IH]; simpl; [reflexivity|].
  now rewrite map_app, IH.
Qed.

Lemma flat_map_map_outer (B C D : Type) (f : C -> list D) (g : B -> C) (l : list B) :
  flat_map f (map g l) = flat_map (fun x => f (g x)) l.
Proof.
  induction l as [|x l IH]; simpl; [reflexivity|].
  now rewrite IH.
Qed.

Lemma flat_map_nested (B C D : Type) (f : C -> list D) (g : B -> list C) (l : list B) :
  flat_map f (flat_map g l) = flat_map (fun x => flat_map f (g x)) l.
Proof.
  induction l as [|x l IH]; simpl; [reflexivity|].
  now rewrite flat_map_app, IH.
Qed.

Lemma fold_product_step (pools : list (list A)) :
  forall acc,
    fold_left Py.product_step pools acc
    = flat_map (fun x => map (app x) (combinations pools)) acc.
Proof.
  induction pools as [|pool rest IH]; intros acc; simpl.
  - induction acc as [|x acc IHacc]; simpl; [reflexivity|].
    now rewrite app_nil_r, <- IHacc.
  - rewrite IH. unfold Py.product_step.
    rewrite flat_map_nested.
    apply flat_map_ext; intros x.
    rewrite flat_map_map_outer, flat_map_map_inner.
    apply flat_map_ext; intros y.
    rewrite map_map. apply map_ext; intros t.
    now rewrite <- app_assoc.
Qed.

Lemma product_combinations (pools : list (list A)) :
  Py.product pools = combinations pools.
Proof.
  unfold Py.product. rewrite fold_product_step. simpl.
  rewrite app_nil_r. exact (map_id (combinations pools)).
Qed.

Lemma length_flat_map_const (B C : Type) (f : B -> list C) (n : nat) (l : list B) :
  (forall x, List.length (f x) = n) ->
  List.length (flat_map f l) = List.length l * n.
Proof.
  intros H. induction l as [|x l IH]; simpl; [reflexivity|].
  now rewrite length_app, H, IH.
Qed.

Lemma length_combinations (pools : list (list A)) :
  List.length (combinations pools)
  = fold_right Nat.mul 1 (map (@List.length A) pools).
Proof.
  induction pools as [|pool rest IH]; simpl; [reflexivity|].
  rewrite length_flat_map_const with (n := List.length (combinations rest)).
  - now rewrite IH.
  - intros x. apply length_map.
Qed.

Lemma combinations_singleton (x : A) (rest : list (list A)) :
  combinations ([x] :: rest) = map (cons x) (combinations rest).
Proof. simpl. apply app_nil_r. Qed.

Lemma nth_error_flat_map_grid (B C : Type) (f : A -> B -> C) (xs : list A) (ys : list B) :
  forall i j x y,
    nth_error xs i = Some x -> nth_error ys j = Some y ->
    nth_error (flat_map (fun a => map (f a) ys) xs) (i * List.length ys + j)
    = Some (f x y).
Proof.
  induction xs as [|a xs IH]; intros i j x y Hx Hy.
  - destruct i; discriminate.
  - destruct i as [|i]; simpl in *.
    + injection Hx as ->.
      rewrite nth_error_app1.
      * now rewrite nth_error_map, Hy.
      * rewrite length_map. apply nth_error_Some. congruence.
    + rewrite nth_error_app2 by (rewrite length_map; lia).
      rewrite length_map.
      replace (List.length ys + i * List.length ys + j - List.length ys)
        with (i * List.length ys + j) by lia.
      now apply IH.
Qed.

End Product.

Lemma combinations_two_pools (l0 l1 l2 : string) (xs ys : list string) :
  map (Py.join EmptyString) (combinations [[l0]; xs; [l1]; ys; [l2]])
  = flat_map (fun a => map (fun b => (l0 ++ a ++ l1 ++ b ++ l2)%string) ys) xs.
Proof.
  rewrite combinations_singleton, map_map.
  change (combinations [xs; [l1]; ys; [l2]])
    with (flat_map (fun y => map (cons y) (combinations [[l1]; ys; [l2]])) xs).
  rewrite flat_map_map_inner. apply flat_map_ext; intros a.
  rewrite combinations_singleton, !map_map.
  cbn [combinations].
  induction ys as [|b ys IH]; simpl; [reflexivity|].
  f_equal. exact IH.
Qed.

(** ** The command unfolder *)

Section Unfolder.

Import SmartDispatch.

Variables encode decode : string -> string.
Variable templates : registry.

Lemma unfold_matches_segments (text : string) (matches : list Match) :
  forall pos arguments,
    unfold_matches templates text matches pos arguments
    = (segs <- segments templates text matches pos ;; Ok (arguments ++ segs)).
Proof.
  induction matches as [|m rest IH]; intros pos arguments; simpl.
  - reflexivity.
  - destruct (lookup (m_name m) templates) as [arg|]; [|reflexivity].
    destruct (unfold arg _) as [unfolded|e]; simpl; [|reflexivity].
    rewrite IH.
    destruct (segments templates text rest (m_end m)) as [segs|e]; simpl;
      [|reflexivity].
    now rewrite <- !app_assoc.
Qed.

Lemma unfold_command_segments (command : string) :
  templates <> [] ->
  unfold_command encode decode templates command
  = (segs <- segments templates (encode command)
               (finditer templates (encode command)) 0 ;;
     Ok (map (Py.join EmptyString) (combinations (map (map decode) segs)))).
Proof.
  intros Hne. unfold unfold_command.
  destruct templates as [|t ts] eqn:Ht; [congruence|]. rewrite <- Ht.
  rewrite unfold_matches_segments.
  destruct (segments _ _ _ _) as [segs|e]; simpl; [|reflexivity].
  now rewrite product_combinations.
Qed.

Lemma finditer_no_match (text : string) :
  (forall suf, suffix_of suf text -> master_regex templates suf = None) ->
  forall pos, finditer_from templates text pos 0 = [].
Proof.
  induction text as [|c rest IH]; intros Hnone pos; simpl.
  - now rewrite (Hnone EmptyString) by (exists EmptyString; reflexivity).
  - rewrite (Hnone (String c rest)) by (exists EmptyString; reflexivity).
    apply IH. intros suf [pre ->].
    apply Hnone. exists (String c pre). reflexivity.
Qed.

Lemma recognised_nowhere_suffix (text : string) :
  recognised_nowhere templates text = true <->
  (forall suf, suffix_of suf text -> master_regex templates suf = None).
Proof.
  induction text as [|c rest IH]; simpl.
  - split.
    + intros H suf [pre Hpre].
      destruct pre; [|discriminate]. simpl in Hpre. subst suf.
      now destruct (master_regex templates EmptyString).
    + intros H. now rewrite (H EmptyString) by (exists EmptyString; reflexivity).
  - split.
    + intros H suf [pre Hpre].
      destruct (master_regex templates (String c rest)) eqn:Hm; [discriminate|].
      destruct pre as [|c' pre]; simpl in Hpre.
      * now subst suf.
      * injection Hpre as _ Hrest. apply IH; [assumption|]. now exists pre.
    + intros H. rewrite (H (String c rest)) by (exists EmptyString; reflexivity).
      apply IH. intros suf [pre ->]. apply H. now exists (String c pre).
Qed.

Lemma In_nil_combinations (A : Type) (pools : list (list A)) :
  In [] pools -> combinations pools = [].
Proof.
  induction pools as [|pool rest IH]; simpl; [tauto|].
  intros [-> | Hin]; [reflexivity|].
  rewrite (IH Hin). now induction pool.
Qed.


Lemma segments_all_unfold (text : string) (matches : list Match) :
  forallb (unfolds templates text) matches = true ->
  forall pos, exists segs, segments templates text matches pos = Ok segs.
Proof.
  induction matches as [|m rest IH]; simpl; intros H pos.
  - eexists; reflexivity.
  - apply andb_true_iff in H as [Hm Hrest].
    unfold unfolds, alternatives in Hm.
    destruct (lookup (m_name m) templates) as [arg|]; [|discriminate].
    destruct (unfold arg _) as [unfolded|e]; [|discriminate]. simpl.
    destruct (IH Hrest (m_end m)) as [segs ->]. simpl. eexists; reflexivity.
Qed.

Lemma segments_empty_alternative (text : string) (matches : list Match) (m : Match) :
  In m matches -> alternatives templates text m = Ok [] ->
  forall pos segs, segments templates text matches pos = Ok segs -> In [] segs.
Proof.
  induction matches as [|m' rest IH]; simpl; [tauto|].
  intros Hin Hm pos segs Hsegs.
  destruct (lookup (m_name m') templates) as [arg|] eqn:Hl; [|discriminate].
  destruct (unfold arg _) as [unfolded|e] eqn:Hu; [|discriminate]. simpl in Hsegs.
  destruct (segments templates text rest (m_end m')) as [segs'|e] eqn:Hs;
    [|discriminate].
  simpl in Hsegs. injection Hsegs as <-.
  destruct Hin as [-> | Hin].
  - unfold alternatives in Hm. rewrite Hl, Hu in Hm. injection Hm as ->.
    right; left; reflexivity.
  - right; right. eapply IH; eauto.
Qed.


Lemma substring_all (s : string) : substring 0 (String.length s) s = s.
Proof. induction s as [|c s IH]; simpl; [reflexivity|now rewrite IH]. Qed.

Lemma slice_all (s : string) : Py.slice s 0 (String.length s) = s.
Proof. unfold Py.slice. rewrite Nat.sub_0_r. apply substring_all. Qed.

End Unfolder.

(** ** The range template *)

Lemma range_len_spec (start stop step : Z) (i : nat) :
  step <> 0%Z ->
  i < Py.range_len start stop step <->
  (if (0 <? step)%Z then (start + Z.of_nat i * step < stop)%Z
   else (stop < start + Z.of_nat i * step)%Z).
Proof.
  intros Hstep. unfold Py.range_len.
  destruct (Z.ltb_spec 0 step) as [Hpos|Hneg].
  - destruct (Z.ltb_spec start stop) as [Hlt|Hge].
    + pose proof (Z.div_mod (stop - start - 1) step Hstep) as Hdm.
      pose proof (Z.mod_pos_bound (stop - start - 1) step Hpos) as Hb.
      assert (Hq : (0 <= (stop - start - 1) / step)%Z)
        by (apply Z.div_pos; lia).
      split; intros H; nia.
    + split; intros H; nia.
  - assert (Hneg' : (0 < - step)%Z) by lia.
    destruct (Z.ltb_spec stop start) as [Hlt|Hge].
    + assert (Hstep' : (- step <> 0)%Z) by lia.
      pose proof (Z.div_mod (start - stop - 1) (- step) Hstep') as Hdm.
      pose proof (Z.mod_pos_bound (start - stop - 1) (- step) Hneg') as Hb.
      assert (Hq : (0 <= (start - stop - 1) / - step)%Z)
        by (apply Z.div_pos; lia).
      split; intros H; nia.
    + split; intros H; nia.
Qed.

Lemma nth_range (start stop step : Z) (i : nat) :
  i < List.length (Py.range start stop step) ->
  nth i (Py.range start stop step) 0%Z = (start + Z.of_nat i * step)%Z.
Proof.
  unfold Py.range. rewrite length_map, length_seq. intros Hi.
  rewrite nth_indep with (d' := (start + Z.of_nat 0 * step)%Z)
    by (now rewrite length_map, length_seq).
  rewrite (map_nth (fun i => (start + Z.of_nat i * step)%Z)).
  now rewrite seq_nth.
Qed.

Lemma In_range (start stop step x : Z) :
  step <> 0%Z ->
  In x (Py.range start stop step) <->
  exists k : Z,
    (0 <= k)%Z /\ x = (start + k * step)%Z
    /\ (if (0 <? step)%Z then (x < stop)%Z else (stop < x)%Z).
Proof.
  intros Hstep. unfold Py.range. rewrite in_map_iff. split.
  - intros [i [<- Hi]]. apply in_seq in Hi.
    exists (Z.of_nat i). split; [lia|]. split; [reflexivity|].
    apply range_len_spec; [assumption|lia].
  - intros [k [Hk [-> Hbound]]].
    exists (Z.to_nat k). rewrite Z2Nat.id by assumption. split; [reflexivity|].
    apply in_seq. split; [lia|]. simpl.
    apply range_len_spec; [assumption|]. now rewrite Z2Nat.id.
Qed.

Lemma int_str (n : Z) : Py.int (Py.str n) = Some n.
Proof.
  unfold Py.int, Py.str.
  rewrite NilZero.isi.
  - simpl. now rewrite DecimalZ.of_to.
  - destruct n; simpl; try discriminate.
    intros [= H]. now apply (DecimalPos.Unsigned.to_uint_nonnil p).
  - destruct n; simpl; try discriminate.
    intros [= H]. now apply (DecimalPos.Unsigned.to_uint_nonnil p).
Qed.

Lemma range_values_wrong_sign (start stop step : Z) :
  wrong_sign start stop step -> range_values start stop step = Ok [].
Proof.
  unfold wrong_sign, range_values, Py.range, Py.range_len.
  intros [[Hstep Hlt] | [Hstep Hlt]].
  - destruct (Z.eqb_spec step 0); [lia|].
    destruct (Z.ltb_spec 0 step); [|lia].
    destruct (Z.ltb_spec start (stop + 1)); [lia|reflexivity].
  - destruct (Z.eqb_spec step 0); [lia|].
    destruct (Z.ltb_spec 0 step); [lia|].
    destruct (Z.ltb_spec (stop - 1) start); [lia|reflexivity].
Qed.

(** Ranges as written, the integers in decimal. *)

Lemma span_every (p : ascii -> bool) (ds rest : string) :
  every p ds = true -> stops p rest -> span p (ds ++ rest) = (ds, rest).
Proof.
  intros Hds Hrest. induction ds as [|c ds IH]; simpl in *.
  - destruct rest as [|c rest]; [reflexivity|]. simpl in *. now rewrite Hrest.
  - apply andb_true_iff in Hds as [Hc Hds]. now rewrite Hc, IH.
Qed.

Lemma every_digit_uint (d : Decimal.uint) :
  every isdigit (NilEmpty.string_of_uint d) = true.
Proof. induction d; simpl; auto. Qed.

Lemma digits_of_uint (d : Decimal.uint) :
  exists c ds,
    NilZero.string_of_uint d = String c ds
    /\ isdigit c = true /\ every isdigit ds = true.
Proof.
  pose proof (every_digit_uint d) as H.
  destruct d; simpl in *;
    eexists; eexists; (split; [reflexivity|split; [reflexivity|assumption]]).
Qed.

Lemma isdigit_not_minus (c : ascii) : isdigit c = true -> Ascii.eqb c "-" = false.
Proof.
  intros H. destruct (Ascii.eqb_spec c "-") as [->|]; [discriminate|reflexivity].
Qed.

Lemma scan_integer_str (n : Z) (rest : string) :
  stops isdigit rest ->
  scan_integer (Py.str n ++ rest) = Some (Py.str n, rest).
Proof.
  intros Hrest. unfold Py.str, scan_integer.
  destruct (Z.to_int n) as [d|d]; cbn [NilZero.string_of_int];
    destruct (digits_of_uint d) as [c [ds [-> [Hc Hds]]]].
  - cbn [append]. rewrite (isdigit_not_minus c Hc).
    change (String c (ds ++ rest)) with (String c ds ++ rest)%string.
    rewrite span_every; [reflexivity| |assumption].
    simpl. now rewrite Hc, Hds.
  - cbn [append]. rewrite Ascii.eqb_refl.
    change (String c (ds ++ rest)) with (String c ds ++ rest)%string.
    rewrite span_every; [reflexivity| |assumption].
    simpl. now rewrite Hc, Hds.
Qed.

Lemma scan_range_text (start stop : Z) (step : option Z) (rest : string) :
  scan_range (range_text start stop step ++ rest)
  = Some (Py.str start, Py.str stop, option_map Py.str step, rest).
Proof.
  unfold range_text, scan_range.
  rewrite !append_assoc. cbn [append].
  rewrite scan_integer_str by reflexivity.
  destruct step as [c|]; rewrite ?append_assoc; cbn [append].
  - rewrite scan_integer_str by reflexivity.
    rewrite !append_assoc. cbn [append].
    now rewrite scan_integer_str by reflexivity.
  - now rewrite scan_integer_str by reflexivity.
Qed.

Lemma parse_range_text (start stop : Z) (step : option Z) :
  parse_range (range_text start stop step)
  = Some (start, stop, match step with Some c => c | None => 1%Z end).
Proof.
  unfold parse_range.
  rewrite <- (append_nil_r (range_text start stop step)).
  rewrite scan_range_text, !int_str.
  destruct step as [c|]; cbn [option_map]; [now rewrite int_str|reflexivity].
Qed.

Lemma range_regex_text (start stop : Z) (step : option Z) (rest : string) :
  range_regex (range_text start stop step ++ rest)
  = Some (String.length (range_text start stop step)).
Proof.
  unfold range_regex. rewrite scan_range_text, length_append.
  f_equal. lia.
Qed.

(** * The claims *)

(** ** [unfold_command] *)

(** C1.  A command with exactly two folded arguments, of [m] and [n]
    alternatives, unfolds to [m * n] commands; the command at position
    [i * n + j] is the text around the two arguments with alternative [i] of
    the first and alternative [j] of the second in their places, so the
    second argument varies fastest, and every position is of this form.
    [echo [a b] [1:3]] unfolds to [echo a 1], [echo a 2], [echo a 3],
    [echo b 1], [echo b 2], [echo b 3]. *)
Theorem unfold_command_cartesian_product :
  (forall (encode decode : string -> string) (templates : registry)
          (command : string) (m1 m2 : Match) (alts1 alts2 : list string),
      templates <> [] ->
      finditer templates (encode command) = [m1; m2] ->
      alternatives templates (encode command) m1 = Ok alts1 ->
      alternatives templates (encode command) m2 = Ok alts2 ->
      exists commands,
        unfold_command encode decode templates command = Ok commands
        /\ List.length commands = List.length alts1 * List.length alts2
        /\ (forall i j a b,
               nth_error alts1 i = Some a -> nth_error alts2 j = Some b ->
               nth_error commands (i * List.length alts2 + j)
               = Some (decode (Py.slice (encode command) 0 (m_start m1))
                       ++ decode a
                       ++ decode (Py.slice (encode command) (m_end m1) (m_start m2))
                       ++ decode b
                       ++ decode (Py.slice (encode command) (m_end m2)
                                    (String.length (encode command))))%string)
        /\ (forall k, k < List.length commands ->
                      exists i j,
                        i < List.length alts1 /\ j < List.length alts2
                        /\ k = i * List.length alts2 + j))
  /\ (forall encode decode : string -> string,
         encode "echo [a b] [1:3]" = "echo [a b] [1:3]" ->
         map decode ["echo "; "a"; "b"; " "; "1"; "2"; "3"; EmptyString]
         = ["echo "; "a"; "b"; " "; "1"; "2"; "3"; EmptyString] ->
         unfold_command encode decode argument_templates "echo [a b] [1:3]"
         = Ok ["echo a 1"; "echo a 2"; "echo a 3";
               "echo b 1"; "echo b 2"; "echo b 3"]).
Proof.
  split.
  - intros encode decode templates command m1 m2 alts1 alts2 Hne Hfind H1 H2.
    rewrite unfold_command_segments by assumption.
    rewrite Hfind. unfold alternatives in H1, H2.
    cbn [segments].
    destruct (lookup (m_name m1) templates) as [arg1|]; [|discriminate].
    destruct (lookup (m_name m2) templates) as [arg2|]; [|discriminate].
    rewrite H1, H2. cbn [bind map].
    rewrite combinations_two_pools.
    rewrite flat_map_map_outer.
    eexists; split; [reflexivity|].
    match goal with
    | |- List.length ?l = _ /\ _ =>
        assert (Hlen : List.length l = List.length alts1 * List.length alts2)
    end.
    { rewrite length_flat_map_const with (n := List.length alts2);
        [reflexivity|].
      intros x. now rewrite !length_map. }
    split; [exact Hlen|]. split.
    + intros i j a b Ha Hb.
      erewrite flat_map_ext; [|intros x; apply map_map].
      now apply (nth_error_flat_map_grid string string
                   (fun a b => _ ++ decode a ++ _ ++ decode b ++ _)%string).
    + intros k Hk. rewrite Hlen in Hk.
      assert (Hn : List.length alts2 <> 0) by (intros Hz; rewrite Hz in Hk; lia).
      exists (k / List.length alts2), (k mod List.length alts2).
      split; [apply Nat.Div0.div_lt_upper_bound; lia|].
      split; [now apply Nat.mod_upper_bound|].
      pose proof (Nat.div_mod_eq k (List.length alts2)). lia.
  - intros encode decode Henc Hdec.
    rewrite unfold_command_segments by discriminate.
    rewrite Henc.
    injection Hdec as H1 H2 H3 H4 H5 H6 H7 H8.
    vm_compute.
    rewrite H1, H2, H3, H4, H5, H6, H7, H8. reflexivity.
Qed.

Lemma unfold_command_cartesian_product_witness :
  (exists commands,
      unfold_command plain plain argument_templates "run [x y z] [0:1]" = Ok commands
      /\ List.length commands = 3 * 2
      /\ nth_error commands (2 * 2 + 1) = Some "run z 1")
  /\ unfold_command plain plain argument_templates "echo [a b] [1:3]"
     = Ok ["echo a 1"; "echo a 2"; "echo a 3"; "echo b 1"; "echo b 2"; "echo b 3"].
Proof.
  split.
  - destruct (proj1 unfold_command_cartesian_product plain plain argument_templates
                "run [x y z] [0:1]"
                {| m_start := 4; m_end := 11; m_name := "list" |}
                {| m_start := 12; m_end := 17; m_name := "range" |}
                ["x"; "y"; "z"] ["0"; "1"])
      as [commands [H [Hlen [Hnth _]]]];
      [discriminate | reflexivity | reflexivity | reflexivity |].
    exists commands. split; [exact H|]. split; [exact Hlen|].
    exact (Hnth 2 1 "z" "1" eq_refl eq_refl).
  - apply (proj2 unfold_command_cartesian_product plain plain); reflexivity.
Defined.

(** C2.  A range [[start:end]] or [[start:end:step]] with a non-zero step
    unfolds to the decimal renderings of [start], [start + step],
    [start + 2 * step], ...: exactly the integers met from [start] by [step]
    up to [end] inclusive.  A range written with its integers in decimal
    is read back as these integers, an omitted step as 1.  [[1:5]] unfolds to
    1, 2, 3, 4, 5, [[1:5:2]] to 1, 3, 5 and [[5:1:-1]] to 5, 4, 3, 2, 1. *)
Theorem range_unfold_inclusive :
  (forall (matched : string) (start stop step : Z),
      parse_range matched = Some (start, stop, step) ->
      step <> 0%Z ->
      exists values : list Z,
        range_unfold matched = Ok (map Py.str values)
        /\ (forall i, i < List.length values ->
                      nth i values 0%Z = (start + Z.of_nat i * step)%Z)
        /\ (forall x, In x values <-> reached start stop step x)
        /\ (forall x, In x values -> Py.int (Py.str x) = Some x))
  /\ (forall (start stop : Z) (step : option Z),
         parse_range (range_text start stop step)
         = Some (start, stop, match step with Some c => c | None => 1%Z end))
  /\ range_unfold "[1:5]" = Ok ["1"; "2"; "3"; "4"; "5"]
  /\ range_unfold "[1:5:2]" = Ok ["1"; "3"; "5"]
  /\ range_unfold "[5:1:-1]" = Ok ["5"; "4"; "3"; "2"; "1"].
Proof.
  split; [|split; [exact parse_range_text|repeat split; reflexivity]].
  intros matched start stop step Hparse Hstep.
  unfold range_unfold, range_values. rewrite Hparse.
  destruct (Z.eqb_spec step 0) as [|_]; [contradiction|].
  unfold reached.
  destruct (Z.ltb_spec 0 step) as [Hpos|Hneg]; simpl;
    eexists; (split; [reflexivity|]); (split; [intros i; apply nth_range|]);
    (split; [|intros x _; apply int_str]); intros x;
    rewrite In_range by assumption.
  - destruct (Z.ltb_spec 0 step); [|lia].
    split; intros [k [Hk [Hx Hb]]]; exists k; repeat split; (assumption || lia).
  - destruct (Z.ltb_spec 0 step); [lia|].
    split; intros [k [Hk [Hx Hb]]]; exists k; repeat split; (assumption || lia).
Qed.

Lemma range_unfold_inclusive_witness :
  exists values : list Z,
    range_unfold "[2:11:3]" = Ok (map Py.str values)
    /\ (forall i, i < List.length values ->
                  nth i values 0%Z = (2 + Z.of_nat i * 3)%Z)
    /\ (forall x, In x values <-> reached 2 11 3 x)
    /\ (forall x, In x values -> Py.int (Py.str x) = Some x).
Proof.
  apply (proj1 range_unfold_inclusive "[2:11:3]" 2%Z 11%Z 3%Z);
    [reflexivity | discriminate].
Defined.

(** C3.  A command in which no registered template recognises a folded
    argument unfolds to one command, the decoded text of the encoded
    command; where decoding recovers the original text, that is the command
    itself. *)
Theorem unfold_command_no_folded_argument :
  forall (encode decode : string -> string) (templates : registry)
         (command : string),
    templates <> [] ->
    recognised_nowhere templates (encode command) = true ->
    unfold_command encode decode templates command
    = Ok [decode (encode command)]
    /\ (decode (encode command) = command ->
        unfold_command encode decode templates command = Ok [command]).
Proof.
  intros encode decode templates command Hne Hnone.
  assert (H : unfold_command encode decode templates command
              = Ok [decode (encode command)]).
  { rewrite unfold_command_segments by assumption.
    unfold finditer. rewrite finditer_no_match.
    - simpl. now rewrite slice_all.
    - now apply recognised_nowhere_suffix. }
  split; [exact H|]. intros Hround. now rewrite H, Hround.
Qed.

Lemma unfold_command_no_folded_argument_witness :
  unfold_command plain plain argument_templates "echo [hello 1:2"
  = Ok ["echo [hello 1:2"].
Proof.
  apply (unfold_command_no_folded_argument plain plain argument_templates
           "echo [hello 1:2"); [discriminate | reflexivity | reflexivity].
Defined.

(** C4, as the code has it.  A range folded argument whose step has the
    wrong sign to reach its end unfolds to no alternative, and a command
    that holds one unfolds to no command, without an error, when its other
    folded arguments unfold; so does [[1:5:-1]]. *)
Theorem unfold_command_unreachable_range :
  (forall (encode decode : string -> string) (command : string) (m : Match)
          (start stop step : Z),
      In m (finditer argument_templates (encode command)) ->
      m_name m = "range" ->
      parse_range (Py.slice (encode command) (m_start m) (m_end m))
      = Some (start, stop, step) ->
      wrong_sign start stop step ->
      forallb (unfolds argument_templates (encode command))
              (finditer argument_templates (encode command)) = true ->
      alternatives argument_templates (encode command) m = Ok []
      /\ unfold_command encode decode argument_templates command = Ok [])
  /\ (forall encode decode : string -> string,
         encode "[1:5:-1]" = "[1:5:-1]" ->
         unfold_command encode decode argument_templates "[1:5:-1]" = Ok []).
Proof.
  split.
  - intros encode decode command m start stop step Hin Hname Hparse Hsign Hall.
    assert (Halt : alternatives argument_templates (encode command) m = Ok []).
    { unfold alternatives. rewrite Hname. simpl.
      unfold range_unfold. rewrite Hparse.
      now rewrite range_values_wrong_sign. }
    split; [exact Halt|].
    rewrite unfold_command_segments by discriminate.
    destruct (segments_all_unfold argument_templates _ _ Hall 0) as [segs Hsegs].
    rewrite Hsegs. simpl.
    rewrite In_nil_combinations; [reflexivity|].
    apply in_map_iff. exists []. split; [reflexivity|].
    eapply segments_empty_alternative; eauto.
  - intros encode decode Henc.
    rewrite unfold_command_segments by discriminate.
    rewrite Henc. reflexivity.
Qed.

Lemma unfold_command_unreachable_range_witness :
  unfold_command plain plain argument_templates "run [a b] [1:5:-1]" = Ok []
  /\ unfold_command plain plain argument_templates "[1:5:-1]" = Ok [].
Proof.
  split.
  - apply (proj1 unfold_command_unreachable_range plain plain "run [a b] [1:5:-1]"
             {| m_start := 10; m_end := 18; m_name := "range" |} 1%Z 5%Z (-1)%Z).
    + right; left; reflexivity.
    + reflexivity.
    + reflexivity.
    + right; lia.
    + reflexivity.
  - apply (proj2 unfold_command_unreachable_range plain plain). reflexivity.
Defined.

(** C4, as stated, fails: a command that holds a range with a step of the
    wrong sign does not always unfold to no command without an error.  In
    [run [1:5:-1] [1:9:0]] the first folded argument is such a range and
    unfolds to no alternative, yet the zero step of the second one makes the
    call raise. *)
Lemma unfold_command_unreachable_range_raises :
  In {| m_start := 4; m_end := 12; m_name := "range" |}
     (finditer argument_templates (plain "run [1:5:-1] [1:9:0]"))
  /\ parse_range (Py.slice (plain "run [1:5:-1] [1:9:0]") 4 12)
     = Some (1, 5, -1)%Z
  /\ wrong_sign 1 5 (-1)
  /\ alternatives argument_templates (plain "run [1:5:-1] [1:9:0]")
       {| m_start := 4; m_end := 12; m_name := "range" |} = Ok []
  /\ unfold_command plain plain argument_templates "run [1:5:-1] [1:9:0]"
     = Raise ValueError
  /\ unfold_command plain plain argument_templates "run [1:5:-1] [1:9:0]"
     <> Ok [].
Proof.
  split; [left; reflexivity|].
  split; [reflexivity|].
  split; [right; split; reflexivity|].
  split; [reflexivity|].
  split; [reflexivity|].
  vm_compute. discriminate.
Qed.




(** ** [replace_uid_tag] *)

(** C7.  The same command text gets the same result whichever call and
    whichever position it is in: the command is its pieces around the
    [{UID}] tags, none of which holds a tag, and the result is these pieces
    around one identifier, that of the command's text. *)
Theorem replace_uid_tag_deterministic :
  forall (generate_uid_from_string : string -> string)
         (commands1 commands2 : list string) (i j : nat) (command : string),
    nth_error commands1 i = Some command ->
    nth_error commands2 j = Some command ->
    exists pieces : list string,
      command = Py.join UID_TAG pieces
      /\ Forall (fun p => occurs UID_TAG p = false) pieces
      /\ nth_error (replace_uid_tag generate_uid_from_string commands1) i
         = Some (Py.join (generate_uid_from_string command) pieces)
      /\ nth_error (replace_uid_tag generate_uid_from_string commands2) j
         = Some (Py.join (generate_uid_from_string command) pieces).
Proof.
  intros uid commands1 commands2 i j command H1 H2.
  assert (Htag : UID_TAG <> EmptyString) by discriminate.
  exists (Py.split UID_TAG command).
  split; [symmetry; now apply join_split|].
  split; [now apply split_pieces_free|].
  unfold replace_uid_tag.
  rewrite !nth_error_map, H1, H2. cbn [option_map].
  fold UID_TAG. now rewrite replace_join_split.
Qed.

Lemma replace_uid_tag_deterministic_witness :
  exists pieces : list string,
    "run {UID} > {UID}.log" = Py.join UID_TAG pieces
    /\ Forall (fun p => occurs UID_TAG p = false) pieces
    /\ nth_error (replace_uid_tag length_uid ["ls"; "run {UID} > {UID}.log"]) 1
       = Some (Py.join (length_uid "run {UID} > {UID}.log") pieces)
    /\ nth_error (replace_uid_tag length_uid ["run {UID} > {UID}.log"]) 0
       = Some (Py.join (length_uid "run {UID} > {UID}.log") pieces).
Proof.
  apply (replace_uid_tag_deterministic length_uid
           ["ls"; "run {UID} > {UID}.log"] ["run {UID} > {UID}.log"] 1 0);
    reflexivity.
Defined.

(** C9.  The identifier of a command is computed from the command as given,
    tags included: for pieces that hold no tag, the command made of them
    around [{UID}] tags becomes the pieces around the identifier of that
    very text; and two different lists of such pieces make two different
    texts to hash. *)
Theorem replace_uid_tag_hashes_command_as_given :
  forall generate_uid_from_string : string -> string,
    (forall pieces : list string,
        pieces <> [] ->
        Forall (fun p => occurs UID_TAG p = false) pieces ->
        replace_uid_tag generate_uid_from_string [Py.join UID_TAG pieces]
        = [Py.join (generate_uid_from_string (Py.join UID_TAG pieces)) pieces])
    /\ (forall pieces pieces' : list string,
           pieces <> [] -> pieces' <> [] ->
           Forall (fun p => occurs UID_TAG p = false) pieces ->
           Forall (fun p => occurs UID_TAG p = false) pieces' ->
           pieces <> pieces' ->
           Py.join UID_TAG pieces <> Py.join UID_TAG pieces').
Proof.
  intros uid.
  assert (Htag : UID_TAG <> EmptyString) by discriminate.
  split.
  - intros pieces Hne Hfree. unfold replace_uid_tag. cbn [map].
    fold UID_TAG. rewrite replace_join_split by assumption.
    now rewrite (split_join UID_TAG Htag UID_TAG_unbordered).
  - intros pieces pieces' Hne Hne' Hfree Hfree' Hdiff Heq.
    apply Hdiff.
    rewrite <- (split_join UID_TAG Htag UID_TAG_unbordered pieces) by assumption.
    rewrite Heq.
    now apply (split_join UID_TAG Htag UID_TAG_unbordered).
Qed.

Lemma replace_uid_tag_hashes_command_as_given_witness :
  replace_uid_tag length_uid [Py.join UID_TAG ["a"; "b"; EmptyString]] = ["a12b12"]
  /\ Py.join UID_TAG ["a"; "b"; EmptyString] <> Py.join UID_TAG [EmptyString; "ab"].
Proof.
  split.
  - apply (proj1 (replace_uid_tag_hashes_command_as_given length_uid) ["a"; "b"; EmptyString]).
    + discriminate.
    + repeat constructor.
  - apply (proj2 (replace_uid_tag_hashes_command_as_given length_uid)
             ["a"; "b"; EmptyString] [EmptyString; "ab"]);
      try discriminate; repeat constructor.
Defined.

(** ** [generate_name_from_command] *)

Lemma slice_from_zero (s : string) : Py.slice_from s (Some 0%Z) = s.
Proof. unfold Py.slice_from, Py.clamp. simpl. apply slice_all. Qed.

(** The last [n] characters of a text, the whole text when it has no more. *)
Lemma slice_from_negative (s : string) (n : nat) :
  0 < n ->
  Py.slice_from s (Some (- Z.of_nat n)%Z)
  = if (String.length s <=? n)%nat then s
    else substring (String.length s - n) n s.
Proof.
  intros Hn. unfold Py.slice_from, Py.clamp, Py.slice.
  destruct (Z.ltb_spec (- Z.of_nat n) 0); [|lia].
  destruct (Nat.leb_spec (String.length s) n) as [Hle|Hlt].
  - replace (Z.to_nat (Z.max 0 (Z.of_nat (String.length s) + - Z.of_nat n)))
      with 0 by lia.
    rewrite Nat.sub_0_r. apply substring_all.
  - replace (Z.to_nat (Z.max 0 (Z.of_nat (String.length s) + - Z.of_nat n)))
      with (String.length s - n) by lia.
    f_equal. lia.
Qed.

(** With limits [n > 0] on the arguments and [k] on the name, the name is
    the first [k] characters of the time stamp followed by the slugified
    arguments, each cut to its last [n] characters, joined by [_]. *)
Lemma generate_name_from_command_limits
    (slugify : string -> string) (now : Py.struct_time) (command : string)
    (n k : nat) :
  0 < n ->
  generate_name_from_command slugify now command
    (Some (Z.of_nat n)) (Some (Z.of_nat k))
  = substring 0 k
      (Py.strftime_Ymd_HMS now
       ++ Py.join "_"
            (map (fun argvalue =>
                    if (String.length (slugify argvalue) <=? n)%nat
                    then slugify argvalue
                    else substring (String.length (slugify argvalue) - n) n
                           (slugify argvalue))
                 (Py.split_ws command)))%string.
Proof.
  intros Hn. unfold generate_name_from_command.
  replace (Z.min (- Z.of_nat n) (Z.of_nat n)) with (- Z.of_nat n)%Z by lia.
  erewrite map_ext; [|intros a; apply slice_from_negative; exact Hn].
  unfold Py.slice_to, Py.slice, Py.clamp.
  destruct (Z.ltb_spec (Z.of_nat k) 0); [lia|].
  rewrite Nat2Z.id, Nat.sub_0_r.
  set (name := (_ ++ _)%string).
  destruct (Nat.le_gt_cases k (String.length name)) as [Hle|Hgt].
  - now rewrite Nat.min_l.
  - rewrite Nat.min_r by lia.
    rewrite substring_all. clear -Hgt.
    revert k Hgt. induction name as [|c name IH]; intros k Hgt.
    + now destruct k.
    + destruct k; [simpl in Hgt; lia|]. simpl. f_equal.
      apply IH. simpl in Hgt. lia.
Qed.

(** C8 at [max_length_arg = 0].  The limit 0 on the arguments cuts nothing:
    every slugified argument is kept whole, as with no limit at all; so are
    [run] and [12345678], two arguments that are their own slugs. *)
Theorem generate_name_from_command_zero_max_length_arg :
  (forall (slugify : string -> string) (now : Py.struct_time) (command : string),
      generate_name_from_command slugify now command (Some 0%Z) None
      = (Py.strftime_Ymd_HMS now
         ++ Py.join "_" (map slugify (Py.split_ws command)))%string
      /\ generate_name_from_command slugify now command (Some 0%Z) None
         = generate_name_from_command slugify now command None None)
  /\ generate_name_from_command plain
       {| Py.tm_year := 2014; Py.tm_mon := 7; Py.tm_mday := 9;
          Py.tm_hour := 16; Py.tm_min := 5; Py.tm_sec := 0 |}
       "run 12345678" (Some 0%Z) None
     = "2014-07-09_16-05-00_run_12345678".
Proof.
  split; [|reflexivity].
  intros slugify now command. unfold generate_name_from_command.
  change (Z.min (- 0) 0) with 0%Z. cbn [Py.slice_to Py.slice_from].
  erewrite map_ext; [|intros a; apply slice_from_zero].
  split; reflexivity.
Qed.

(** ** [get_commands_from_file] *)

Lemma lstrip_blank (s : string) : blank s = true -> Py.lstrip s = EmptyString.
Proof.
  induction s as [|c s IH]; simpl; [reflexivity|].
  intros H. apply andb_true_iff in H as [Hc Hs]. now rewrite Hc, IH.
Qed.

Lemma LF_nonempty : LF <> EmptyString.
Proof. discriminate. Qed.

(** C10.  A file that is empty or holds whitespace only gives the one
    empty command alone, and no file gives an empty list.  Only the two ends of the
    content are stripped: a content without whitespace at its ends gives its
    lines as they are, an empty command for each empty line among them. *)
Theorem get_commands_from_file_blank_lines :
  (forall content : string,
      blank content = true -> get_commands_from_file content = [EmptyString])
  /\ (forall content : string, get_commands_from_file content <> [])
  /\ (forall lines : list string,
         lines <> [] ->
         Forall (fun line => occurs LF line = false) lines ->
         Py.strip (Py.join LF lines) = Py.join LF lines ->
         get_commands_from_file (Py.join LF lines) = lines)
  /\ get_commands_from_file ("a" ++ LF ++ LF ++ "  " ++ LF ++ "b" ++ LF ++ LF)%string
     = ["a"; EmptyString; "  "; "b"].
Proof.
  split; [|split; [|split]].
  - intros content Hblank. unfold get_commands_from_file, Py.strip.
    now rewrite lstrip_blank.
  - intros content. apply split_from_nonempty.
  - intros lines Hne Hfree Hstrip. unfold get_commands_from_file.
    rewrite Hstrip.
    exact (split_join LF LF_nonempty newline_unbordered lines Hne Hfree).
  - reflexivity.
Qed.

Lemma get_commands_from_file_blank_lines_witness :
  get_commands_from_file (String "009" (LF ++ " ")) = [EmptyString]
  /\ get_commands_from_file (Py.join LF ["ls"; EmptyString; EmptyString; "pwd"]) = ["ls"; EmptyString; EmptyString; "pwd"].
Proof.
  split.
  - apply (proj1 get_commands_from_file_blank_lines). reflexivity.
  - apply (proj1 (proj2 (proj2 get_commands_from_file_blank_lines))).
    + discriminate.
    + repeat constructor.
    + reflexivity.
Defined.

(** * Further properties *)

(** ** [unfold_command]: any number of folded arguments *)

Lemma unfold_all_segments (templates : registry) (text : string)
    (matches : list Match) :
  forall altss pos,
    unfold_all templates text matches = Ok altss ->
    exists segs,
      segments templates text matches pos = Ok segs
      /\ fold_right Nat.mul 1 (map (@List.length string) segs)
         = fold_right Nat.mul 1 (map (@List.length string) altss).
Proof.
  induction matches as [|m rest IH]; intros altss pos H; simpl in *.
  - injection H as <-. eexists; split; reflexivity.
  - unfold alternatives in H.
    destruct (lookup (m_name m) templates) as [arg|]; [|discriminate].
    destruct (unfold arg _) as [alts|e]; [|discriminate]. simpl in *.
    destruct (unfold_all templates text rest) as [others|e]; [|discriminate].
    simpl in H. injection H as <-.
    destruct (IH others (m_end m) eq_refl) as [segs [-> Hprod]]. simpl.
    eexists; split; [reflexivity|]. simpl. rewrite Hprod. lia.
Qed.

Lemma segments_first_error (templates : registry) (text : string)
    (before after : list Match) (m : Match) (e : error) :
  forallb (unfolds templates text) before = true ->
  alternatives templates text m = Raise e ->
  forall pos, segments templates text (before ++ m :: after) pos = Raise e.
Proof.
  induction before as [|m' before IH]; intros Hall Hm pos; simpl in *.
  - unfold alternatives in Hm.
    destruct (lookup (m_name m) templates) as [arg|]; [|congruence].
    now rewrite Hm.
  - apply andb_true_iff in Hall as [Hm' Hall].
    unfold unfolds, alternatives in Hm'.
    destruct (lookup (m_name m') templates) as [arg|]; [|discriminate].
    destruct (unfold arg _) as [alts|e']; [|discriminate]. simpl.
    now rewrite IH.
Qed.

Lemma In_segment_combinations (decode : string -> string) (templates : registry)
    (text : string) (matches : list Match) :
  forall altss pos segs x,
    unfold_all templates text matches = Ok altss ->
    segments templates text matches pos = Ok segs ->
    In x (combinations (map (map decode) segs)) <->
    exists picks,
      Forall2 (fun pick alts => In pick alts) picks altss
      /\ x = map decode (substitute text matches picks pos).
Proof.
  induction matches as [|m rest IH]; intros altss pos segs x Hall Hsegs;
    simpl in Hall, Hsegs.
  - injection Hall as <-. injection Hsegs as <-. simpl. split.
    + intros [<- | []]. exists []. split; [constructor|reflexivity].
    + intros [picks [Hpicks ->]]. inversion Hpicks; subst. now left.
  - unfold alternatives in Hall.
    destruct (lookup (m_name m) templates) as [arg|]; [|discriminate].
    destruct (unfold arg _) as [alts|e]; [|discriminate]. simpl in Hall, Hsegs.
    destruct (unfold_all templates text rest) as [others|e] eqn:Hrest;
      [|discriminate].
    destruct (segments templates text rest (m_end m)) as [segs'|e] eqn:Hsegs';
      [|discriminate].
    simpl in Hall, Hsegs. injection Hall as <-. injection Hsegs as <-.
    cbn [map]. rewrite combinations_singleton.
    cbn [combinations]. rewrite in_map_iff. split.
    + intros [y [<- Hy]]. apply in_flat_map in Hy as [a' [Ha' Hy]].
      apply in_map_iff in Hy as [x' [<- Hx']].
      apply in_map_iff in Ha' as [a [<- Ha]].
      apply (IH others (m_end m) segs' x' eq_refl Hsegs') in Hx'
        as [picks [Hpicks ->]].
      exists (a :: picks). split; [now constructor|reflexivity].
    + intros [picks [Hpicks ->]].
      inversion Hpicks as [|a alts' picks' others' Ha Hpicks']; subst.
      cbn [substitute map].
      eexists; split; [reflexivity|].
      apply in_flat_map. exists (decode a). split; [now apply in_map|].
      apply in_map. apply (IH others (m_end m) segs' _ eq_refl Hsegs').
      exists picks'. split; [assumption|reflexivity].
Qed.

(** X1.  Whatever the number of folded arguments, when they all unfold the
    command unfolds to as many commands as the product of their numbers of
    alternatives. *)
Theorem unfold_command_count :
  forall (encode decode : string -> string) (templates : registry)
         (command : string) (altss : list (list string)),
    templates <> [] ->
    unfold_all templates (encode command) (finditer templates (encode command))
    = Ok altss ->
    exists commands,
      unfold_command encode decode templates command = Ok commands
      /\ List.length commands
         = fold_right Nat.mul 1 (map (@List.length string) altss).
Proof.
  intros encode decode templates command altss Hne Hall.
  rewrite unfold_command_segments by assumption.
  destruct (unfold_all_segments templates _ _ altss 0 Hall) as [segs [-> Hprod]].
  simpl. eexists; split; [reflexivity|].
  rewrite length_map, length_combinations, map_map, <- Hprod.
  f_equal. apply map_ext. intros pool. apply length_map.
Qed.

Lemma unfold_command_count_witness :
  exists commands,
    unfold_command plain plain argument_templates "[a b] [1:3] [x y z] [7:8]"
    = Ok commands
    /\ List.length commands = 2 * (3 * (3 * (2 * 1))).
Proof.
  apply (unfold_command_count plain plain argument_templates
           "[a b] [1:3] [x y z] [7:8]"
           [["a"; "b"]; ["1"; "2"; "3"]; ["x"; "y"; "z"]; ["7"; "8"]]);
    [discriminate | reflexivity].
Defined.

(** X2.  The error of the leftmost folded argument that does not unfold is
    the error of the whole call: no command is returned. *)
Theorem unfold_command_first_error :
  forall (encode decode : string -> string) (templates : registry)
         (command : string) (before after : list Match) (m : Match) (e : error),
    templates <> [] ->
    finditer templates (encode command) = before ++ m :: after ->
    forallb (unfolds templates (encode command)) before = true ->
    alternatives templates (encode command) m = Raise e ->
    unfold_command encode decode templates command = Raise e.
Proof.
  intros encode decode templates command before after m e Hne Hfind Hall Hm.
  rewrite unfold_command_segments by assumption.
  rewrite Hfind.
  now rewrite (segments_first_error templates _ before after m e Hall Hm).
Qed.

Lemma unfold_command_first_error_witness :
  unfold_command plain plain argument_templates "run [a b] [1:9:0] [5:1]"
  = Raise ValueError.
Proof.
  apply (unfold_command_first_error plain plain argument_templates
           "run [a b] [1:9:0] [5:1]"
           [{| m_start := 4; m_end := 9; m_name := "list" |}]
           [{| m_start := 18; m_end := 23; m_name := "range" |}]
           {| m_start := 10; m_end := 17; m_name := "range" |} ValueError);
    [discriminate | reflexivity | reflexivity | reflexivity].
Defined.

(** X3.  The commands returned are exactly the encoded text with every
    folded argument replaced by one of its alternatives, each piece decoded
    on its own before the pieces are joined. *)
Theorem unfold_command_members :
  forall (encode decode : string -> string) (templates : registry)
         (command : string) (altss : list (list string)),
    templates <> [] ->
    unfold_all templates (encode command) (finditer templates (encode command))
    = Ok altss ->
    exists commands,
      unfold_command encode decode templates command = Ok commands
      /\ forall c,
          In c commands <->
          exists picks,
            Forall2 (fun pick alts => In pick alts) picks altss
            /\ c = Py.join EmptyString
                     (map decode
                        (substitute (encode command)
                           (finditer templates (encode command)) picks 0)).
Proof.
  intros encode decode templates command altss Hne Hall.
  rewrite unfold_command_segments by assumption.
  destruct (unfold_all_segments templates _ _ altss 0 Hall) as [segs [Hsegs _]].
  rewrite Hsegs. simpl. eexists; split; [reflexivity|].
  intros c. rewrite in_map_iff. split.
  - intros [x [<- Hx]].
    apply (In_segment_combinations decode templates _ _ altss 0 segs x Hall Hsegs)
      in Hx as [picks [Hpicks ->]].
    exists picks. split; [assumption|reflexivity].
  - intros [picks [Hpicks ->]].
    eexists; split; [reflexivity|].
    apply (In_segment_combinations decode templates _ _ altss 0 segs _ Hall Hsegs).
    exists picks. split; [assumption|reflexivity].
Qed.

Lemma unfold_command_members_witness :
  exists commands,
    unfold_command plain plain argument_templates "cp [a b] [1:2].txt" = Ok commands
    /\ forall c,
        In c commands <->
        exists picks,
          Forall2 (fun pick alts => In pick alts) picks [["a"; "b"]; ["1"; "2"]]
          /\ c = Py.join EmptyString
                   (map plain
                      (substitute (plain "cp [a b] [1:2].txt")
                         (finditer argument_templates (plain "cp [a b] [1:2].txt"))
                         picks 0)).
Proof.
  apply (unfold_command_members plain plain argument_templates "cp [a b] [1:2].txt"
           [["a"; "b"]; ["1"; "2"]]);
    [discriminate | reflexivity].
Defined.

Lemma combinations_one_pool (l0 l1 : string) (xs : list string) :
  map (Py.join EmptyString) (combinations [[l0]; xs; [l1]])
  = map (fun a => (l0 ++ a ++ l1)%string) xs.
Proof.
  rewrite combinations_singleton, map_map. cbn [combinations].
  induction xs as [|a xs IH]; simpl; [reflexivity|].
  f_equal. exact IH.
Qed.

(** X4.  A command with one folded argument unfolds to one command for each
    alternative, in the order of the alternatives, the text before and after
    the argument kept around it. *)
Theorem unfold_command_one_folded_argument :
  forall (encode decode : string -> string) (templates : registry)
         (command : string) (m : Match) (alts : list string),
    templates <> [] ->
    finditer templates (encode command) = [m] ->
    alternatives templates (encode command) m = Ok alts ->
    unfold_command encode decode templates command
    = Ok (map (fun a =>
                 (decode (Py.slice (encode command) 0 (m_start m))
                  ++ decode a
                  ++ decode (Py.slice (encode command) (m_end m)
                               (String.length (encode command))))%string)
              alts).
Proof.
  intros encode decode templates command m alts Hne Hfind Halts.
  rewrite unfold_command_segments by assumption.
  rewrite Hfind. unfold alternatives in Halts. cbn [segments].
  destruct (lookup (m_name m) templates) as [arg|]; [|discriminate].
  rewrite Halts. cbn [bind map].
  now rewrite combinations_one_pool, map_map.
Qed.

Lemma unfold_command_one_folded_argument_witness :
  unfold_command plain plain argument_templates "python train.py --lr [1 5 25] -v"
  = Ok ["python train.py --lr 1 -v"; "python train.py --lr 5 -v";
        "python train.py --lr 25 -v"].
Proof.
  apply (unfold_command_one_folded_argument plain plain argument_templates
           "python train.py --lr [1 5 25] -v"
           {| m_start := 21; m_end := 29; m_name := "list" |} ["1"; "5"; "25"]);
    [discriminate | reflexivity | reflexivity].
Defined.

(** ** The scan for folded arguments *)

Lemma chained_weaken (matches : list Match) (len p p' : nat) :
  p <= p' -> chained p' matches len -> chained p matches len.
Proof.
  destruct matches as [|m rest]; simpl; [trivial|].
  intros Hle [H1 H2]. split; [lia|exact H2].
Qed.

Lemma finditer_from_chained (templates : registry) (text : string) :
  forall pos skip,
    chained (pos + skip) (finditer_from templates text pos skip)
      (pos + String.length text).
Proof.
  induction text as [|c rest IH]; intros pos skip.
  - destruct skip; simpl; [|trivial].
    destruct (master_regex templates EmptyString) as [[name len]|]; simpl;
      [|trivial].
    repeat split; lia.
  - destruct skip as [|k]; cbn [finditer_from].
    + destruct (master_regex templates (String c rest)) as [[name len]|].
      * cbn [chained m_start m_end]. repeat split; try lia.
        apply chained_weaken with (p' := S pos + (len - 1)); [lia|].
        replace (pos + String.length (String c rest))
          with (S pos + String.length rest) by (simpl; lia).
        apply IH.
      * apply chained_weaken with (p' := S pos + 0); [lia|].
        replace (pos + String.length (String c rest))
          with (S pos + String.length rest) by (simpl; lia).
        apply IH.
    + replace (pos + S k) with (S pos + k) by lia.
      replace (pos + String.length (String c rest))
        with (S pos + String.length rest) by (simpl; lia).
      apply IH.
Qed.

Lemma finditer_from_recognised (templates : registry) (text : string) :
  forall pos skip,
    Forall (fun m =>
              exists pre suf,
                text = (pre ++ suf)%string
                /\ m_start m = pos + String.length pre
                /\ master_regex templates suf
                   = Some (m_name m, m_end m - m_start m))
           (finditer_from templates text pos skip).
Proof.
  induction text as [|c rest IH]; intros pos skip.
  - destruct skip; simpl; [|constructor].
    destruct (master_regex templates EmptyString) as [[name len]|] eqn:Hm;
      constructor; [|constructor].
    exists EmptyString, EmptyString. simpl. rewrite Hm.
    repeat split; [lia|]. do 2 f_equal. lia.
  - assert (Htail : forall k,
               Forall (fun m =>
                         exists pre suf,
                           String c rest = (pre ++ suf)%string
                           /\ m_start m = pos + String.length pre
                           /\ master_regex templates suf
                              = Some (m_name m, m_end m - m_start m))
                      (finditer_from templates rest (S pos) k)).
    { intros k. eapply Forall_impl; [|apply (IH (S pos) k)].
      intros m [pre [suf [-> [Hs Hm]]]].
      exists (String c pre), suf. simpl. repeat split; [lia|exact Hm]. }
    destruct skip as [|k]; cbn [finditer_from]; [|apply Htail].
    destruct (master_regex templates (String c rest)) as [[name len]|] eqn:Hm;
      [|apply Htail].
    constructor; [|apply Htail].
    exists EmptyString, (String c rest). simpl. rewrite Hm.
    repeat split; [lia|]. do 2 f_equal. lia.
Qed.

Lemma finditer_from_complete (templates : registry) (text : string) :
  forall pos skip pre suf,
    text = (pre ++ suf)%string ->
    skip <= String.length pre ->
    master_regex templates suf <> None ->
    exists m,
      In m (finditer_from templates text pos skip)
      /\ m_start m <= pos + String.length pre
      /\ (pos + String.length pre < m_end m
          \/ pos + String.length pre = m_start m).
Proof.
  induction text as [|c rest IH]; intros pos skip pre suf Htext Hskip Hm.
  - destruct pre; [|discriminate]. simpl in Htext. subst suf.
    simpl in Hskip. assert (skip = 0) by lia. subst skip. simpl.
    destruct (master_regex templates EmptyString) as [[name len]|];
      [|congruence].
    eexists; split; [left; reflexivity|]. simpl. lia.
  - assert (Htail : forall k pre',
               pre = String c pre' -> k <= String.length pre' ->
               exists m,
                 In m (finditer_from templates rest (S pos) k)
                 /\ m_start m <= pos + String.length pre
                 /\ (pos + String.length pre < m_end m
                     \/ pos + String.length pre = m_start m)).
    { intros k pre' -> Hk. simpl in Htext. injection Htext as Hrest.
      destruct (IH (S pos) k pre' suf Hrest Hk Hm) as [m [Hin [H1 H2]]].
      exists m. simpl. split; [assumption|]. split; lia. }
    destruct skip as [|k]; cbn [finditer_from].
    + destruct pre as [|c' pre'].
      * simpl in Htext. subst suf.
        destruct (master_regex templates (String c rest)) as [[name len]|];
          [|congruence].
        eexists; split; [left; reflexivity|]. simpl. lia.
      * simpl in Htext. injection Htext as <- Hrest.
        destruct (master_regex templates (String c rest)) as [[name len]|].
        -- destruct (Nat.le_gt_cases (len - 1) (String.length pre')) as [Hle|Hgt].
           ++ destruct (Htail (len - 1) pre' eq_refl Hle) as [m [Hin H]].
              exists m. split; [now right|exact H].
           ++ eexists; split; [left; reflexivity|]. simpl. lia.
        -- apply (Htail 0 pre' eq_refl). lia.
    + destruct pre as [|c' pre']; [simpl in Hskip; lia|].
      simpl in Htext. injection Htext as <- Hrest.
      apply (Htail k pre' eq_refl). simpl in Hskip. lia.
Qed.

(** X5.  The folded arguments found in a text follow one another from the
    left without overlap; each starts where the first template of the
    registry that matches there matches that much text; and every position
    where a template matches is the start of a folded argument found or lies
    inside one. *)
Theorem finditer_matches :
  forall (templates : registry) (text : string),
    chained 0 (finditer templates text) (String.length text)
    /\ Forall (fun m =>
                 exists pre suf,
                   text = (pre ++ suf)%string
                   /\ m_start m = String.length pre
                   /\ master_regex templates suf
                      = Some (m_name m, m_end m - m_start m))
              (finditer templates text)
    /\ (forall pre suf,
           text = (pre ++ suf)%string ->
           master_regex templates suf <> None ->
           exists m,
             In m (finditer templates text)
             /\ m_start m <= String.length pre
             /\ (String.length pre < m_end m \/ String.length pre = m_start m)).
Proof.
  intros templates text. unfold finditer. split; [|split].
  - apply (finditer_from_chained templates text 0 0).
  - apply (finditer_from_recognised templates text 0 0).
  - intros pre suf Htext Hm.
    apply (finditer_from_complete templates text 0 0 pre suf Htext); [lia|exact Hm].
Qed.

Lemma finditer_matches_witness :
  exists m,
    In m (finditer argument_templates "x [1:2] [a]")
    /\ m_start m <= String.length "x [1:2] "
    /\ (String.length "x [1:2] " < m_end m \/ String.length "x [1:2] " = m_start m).
Proof.
  apply (proj2 (proj2 (finditer_matches argument_templates "x [1:2] [a]"))
           "x [1:2] " "[a]");
    [reflexivity | vm_compute; discriminate].
Defined.

(** ** [unfold_command] loses no text *)

Lemma substring_append (s : string) :
  forall a m k,
    (substring a m s ++ substring (a + m) k s)%string = substring a (m + k) s.
Proof.
  induction s as [|c s IH]; intros a m k.
  - destruct a, m, k; reflexivity.
  - destruct a as [|a]; [|apply (IH a m k)].
    destruct m as [|m]; [reflexivity|].
    simpl. f_equal. apply (IH 0 m k).
Qed.

Lemma slice_append (s : string) (a b c : nat) :
  a <= b -> b <= c ->
  (Py.slice s a b ++ Py.slice s b c)%string = Py.slice s a c.
Proof.
  intros Hab Hbc. unfold Py.slice.
  replace b with (a + (b - a)) at 2 by lia.
  rewrite substring_append. f_equal. lia.
Qed.

Lemma substitute_nonempty (text : string) (matches : list Match)
    (picks : list string) (pos : nat) :
  substitute text matches picks pos <> [].
Proof. destruct matches, picks; discriminate. Qed.

Lemma join_substitute_matched (text : string) (matches : list Match) :
  forall pos,
    chained pos matches (String.length text) ->
    forallb (fun m => (m_end m <=? String.length text)%nat) matches = true ->
    Py.join EmptyString
      (substitute text matches (map (matched_text text) matches) pos)
    = Py.slice text pos (String.length text).
Proof.
  induction matches as [|m rest IH]; intros pos Hch Hin; [reflexivity|].
  cbn [map substitute]. simpl in Hch, Hin.
  destruct Hch as [H1 [H2 [H3 Hch]]].
  apply andb_true_iff in Hin as [Hm Hin]. apply Nat.leb_le in Hm.
  rewrite (join_cons EmptyString (Py.slice text pos (m_start m))
             (matched_text text m :: _)) by discriminate.
  cbn [append].
  rewrite join_cons by apply substitute_nonempty. cbn [append].
  rewrite (IH (m_end m) Hch Hin). unfold matched_text.
  rewrite slice_append by lia. now rewrite slice_append by lia.
Qed.

Lemma segments_stand_for_themselves (templates : registry) (text : string)
    (matches : list Match) :
  forallb (stands_for_itself templates text) matches = true ->
  forall pos,
    segments templates text matches pos
    = Ok (map (fun piece => [piece])
            (substitute text matches (map (matched_text text) matches) pos)).
Proof.
  induction matches as [|m rest IH]; intros H pos; [reflexivity|].
  simpl in H. apply andb_true_iff in H as [Hm Hrest].
  unfold stands_for_itself in Hm. apply andb_true_iff in Hm as [_ Hm].
  unfold alternatives in Hm. cbn [segments map substitute].
  destruct (lookup (m_name m) templates) as [arg|]; [|discriminate].
  fold (matched_text text m) in Hm. fold (matched_text text m).
  destruct (unfold arg (matched_text text m)) as [[|a [|b alts]]|e];
    try discriminate.
  apply String.eqb_eq in Hm. subst a. cbn [bind].
  now rewrite (IH Hrest).
Qed.

Lemma combinations_singletons (A : Type) (xs : list A) :
  combinations (map (fun x => [x]) xs) = [xs].
Proof.
  induction xs as [|x xs IH]; [reflexivity|].
  cbn [map]. now rewrite combinations_singleton, IH.
Qed.

Lemma map_fixed (f : string -> string) (xs : list string) :
  forallb (fun x => String.eqb (f x) x) xs = true -> map f xs = xs.
Proof.
  induction xs as [|x xs IH]; simpl; [reflexivity|].
  intros H. apply andb_true_iff in H as [Hx Hxs].
  apply String.eqb_eq in Hx. now rewrite Hx, IH.
Qed.

(** X6.  The pieces [unfold_command] cuts the encoded text into leave no gap
    and no overlap: when every folded argument found ends within the text
    and unfolds to its own text alone, and decoding changes none of the
    pieces, the one command returned is the encoded text. *)
Theorem unfold_command_keeps_text :
  forall (encode decode : string -> string) (templates : registry)
         (command : string),
    templates <> [] ->
    forallb (stands_for_itself templates (encode command))
            (finditer templates (encode command)) = true ->
    forallb (fun piece => String.eqb (decode piece) piece)
            (substitute (encode command) (finditer templates (encode command))
               (map (matched_text (encode command))
                    (finditer templates (encode command))) 0) = true ->
    unfold_command encode decode templates command = Ok [encode command].
Proof.
  intros encode decode templates command Hne Hself Hdec.
  rewrite unfold_command_segments by assumption.
  rewrite (segments_stand_for_themselves templates _ _ Hself). cbn [bind].
  rewrite map_map. cbn [map].
  rewrite <- map_map with (f := decode) (g := fun x => [x]).
  rewrite combinations_singletons. cbn [map].
  rewrite (map_fixed decode _ Hdec).
  rewrite join_substitute_matched.
  - now rewrite slice_all.
  - apply (finditer_from_chained templates (encode command) 0 0).
  - eapply forallb_forall. intros m Hm.
    eapply forallb_forall in Hself; [|exact Hm].
    unfold stands_for_itself in Hself.
    now apply andb_true_iff in Hself as [Hself _].
Qed.

Lemma unfold_command_keeps_text_witness :
  unfold_command plain plain [("group", verbatim list_regex)] "echo [a b] c [d][e f]"
  = Ok ["echo [a b] c [d][e f]"].
Proof.
  apply (unfold_command_keeps_text plain plain [("group", verbatim list_regex)]
           "echo [a b] c [d][e f]");
    [discriminate | reflexivity | reflexivity].
Defined.

(** ** [replace_uid_tag]: commands without a tag, and results without one *)

Lemma replace_without_tag (new s : string) :
  occurs UID_TAG s = false -> Py.replace UID_TAG new s = s.
Proof.
  intros Hfree.
  assert (Htag : UID_TAG <> EmptyString) by discriminate.
  rewrite replace_join_split by assumption. unfold Py.split.
  now rewrite (proj1 (split_piece UID_TAG Htag UID_TAG_unbordered s Hfree)).
Qed.

(** X7.  A command that holds no [{UID}] tag comes back as it is, at its
    position, whatever the identifier function. *)
Theorem replace_uid_tag_without_tag :
  forall (generate_uid_from_string : string -> string) (commands : list string)
         (i : nat) (command : string),
    nth_error commands i = Some command ->
    occurs UID_TAG command = false ->
    nth_error (replace_uid_tag generate_uid_from_string commands) i = Some command.
Proof.
  intros uid commands i command Hi Hfree. unfold replace_uid_tag.
  rewrite nth_error_map, Hi. cbn [option_map]. fold UID_TAG.
  now rewrite replace_without_tag.
Qed.

Lemma replace_uid_tag_without_tag_witness :
  nth_error (replace_uid_tag length_uid ["run {UID}"; "echo {UI D} {uid}"]) 1
  = Some "echo {UI D} {uid}".
Proof.
  apply (replace_uid_tag_without_tag length_uid
           ["run {UID}"; "echo {UI D} {uid}"] 1 "echo {UI D} {uid}");
    reflexivity.
Defined.

Lemma prefix_tag_straddle (c c0 : ascii) (q r : string) :
  prefix UID_TAG (String c q ++ String c0 r) = true ->
  prefix UID_TAG (String c q) = true \/ tag_character c0 = true.
Proof.
  unfold UID_TAG.
  destruct q as [|c2 [|c3 [|c4 [|c5 q]]]]; cbn [prefix append];
    repeat match goal with
           | |- context [ascii_dec ?a ?b] =>
               destruct (ascii_dec a b); try discriminate
           end;
    intros _; subst;
    first [ right; reflexivity | left; destruct q; reflexivity ].
Qed.

Lemma prefix_tag_first (c : ascii) (r : string) :
  tag_character c = false -> prefix UID_TAG (String c r) = false.
Proof.
  intros Hc. unfold UID_TAG. cbn [prefix].
  destruct (ascii_dec "{" c) as [<-|]; [discriminate|reflexivity].
Qed.

Lemma occurs_append_text (p : string) (c0 : ascii) (r : string) :
  occurs UID_TAG p = false ->
  occurs UID_TAG (String c0 r) = false ->
  tag_character c0 = false ->
  occurs UID_TAG (p ++ String c0 r) = false.
Proof.
  intros Hp Hr Hc0. induction p as [|c p IH]; [exact Hr|].
  cbn [occurs] in Hp. apply orb_false_iff in Hp as [Hpre Hp].
  change ((String c p ++ String c0 r)%string)
    with (String c (p ++ String c0 r)).
  cbn [occurs]. rewrite (IH Hp), orb_false_r.
  destruct (prefix UID_TAG (String c (p ++ String c0 r))) eqn:E; [|reflexivity].
  change (String c (p ++ String c0 r))
    with ((String c p ++ String c0 r)%string) in E.
  apply prefix_tag_straddle in E as [E|E]; congruence.
Qed.

Lemma occurs_identifier_append (u r : string) :
  every (fun c => negb (tag_character c)) u = true ->
  occurs UID_TAG r = false ->
  occurs UID_TAG (u ++ r) = false.
Proof.
  intros Hu Hr. induction u as [|c u IH]; [exact Hr|].
  simpl in Hu. apply andb_true_iff in Hu as [Hc Hu].
  apply negb_true_iff in Hc.
  change ((String c u ++ r)%string) with (String c (u ++ r)).
  cbn [occurs]. now rewrite (prefix_tag_first c _ Hc), (IH Hu).
Qed.

Lemma occurs_join_identifier (u : string) (pieces : list string) :
  clean_identifier u = true ->
  Forall (fun p => occurs UID_TAG p = false) pieces ->
  occurs UID_TAG (Py.join u pieces) = false.
Proof.
  intros Hu Hfree. unfold clean_identifier in Hu.
  apply andb_true_iff in Hu as [Hne Hu].
  destruct u as [|c0 u']; [discriminate|]. clear Hne.
  induction Hfree as [|p ps Hp Hps IH]; [reflexivity|].
  destruct ps as [|p' ps]; [exact Hp|].
  rewrite join_cons by discriminate.
  assert (Hrest : occurs UID_TAG (String c0 u' ++ Py.join (String c0 u') (p' :: ps))
                  = false)
    by (apply occurs_identifier_append; assumption).
  change ((String c0 u' ++ Py.join (String c0 u') (p' :: ps))%string)
    with (String c0 (u' ++ Py.join (String c0 u') (p' :: ps))) in *.
  apply occurs_append_text; [assumption|assumption|].
  simpl in Hu. apply andb_true_iff in Hu as [Hc _]. now apply negb_true_iff in Hc.
Qed.

(** X8.  When the identifiers of the commands are not empty and hold no
    character of the tag, as hexadecimal digests do, no [{UID}] tag is left
    in the result, and a second pass changes nothing. *)
Theorem replace_uid_tag_leaves_no_tag :
  forall (generate_uid_from_string : string -> string) (commands : list string),
    forallb (fun command => clean_identifier (generate_uid_from_string command))
            commands = true ->
    Forall (fun result => occurs UID_TAG result = false)
           (replace_uid_tag generate_uid_from_string commands)
    /\ replace_uid_tag generate_uid_from_string
         (replace_uid_tag generate_uid_from_string commands)
       = replace_uid_tag generate_uid_from_string commands.
Proof.
  intros uid commands Hclean.
  assert (Htag : UID_TAG <> EmptyString) by discriminate.
  assert (Hfree : Forall (fun result => occurs UID_TAG result = false)
                         (replace_uid_tag uid commands)).
  { unfold replace_uid_tag. apply Forall_map, Forall_forall. intros c Hc.
    eapply forallb_forall in Hclean; [|exact Hc].
    fold UID_TAG. rewrite replace_join_split by assumption.
    apply occurs_join_identifier; [assumption|].
    now apply split_pieces_free. }
  split; [exact Hfree|].
  unfold replace_uid_tag at 1.
  rewrite <- (map_id (replace_uid_tag uid commands)) at 2.
  apply map_ext_in. intros c Hc. fold UID_TAG.
  apply replace_without_tag.
  now apply (proj1 (Forall_forall _ _) Hfree).
Qed.

Lemma replace_uid_tag_leaves_no_tag_witness :
  Forall (fun result => occurs UID_TAG result = false)
         (replace_uid_tag length_uid ["run {UID}{UID} > {{UID}UID}.log"; "ls"])
  /\ replace_uid_tag length_uid
       (replace_uid_tag length_uid ["run {UID}{UID} > {{UID}UID}.log"; "ls"])
     = replace_uid_tag length_uid ["run {UID}{UID} > {{UID}UID}.log"; "ls"].
Proof.
  apply (replace_uid_tag_leaves_no_tag length_uid
           ["run {UID}{UID} > {{UID}UID}.log"; "ls"]).
  reflexivity.
Defined.

(** ** [get_commands_from_file]: lines and outer whitespace *)

(** X9.  The commands of a file, joined by line feeds, are the content of
    the file without the whitespace at its two ends; no command holds a line
    feed. *)
Theorem get_commands_from_file_lines :
  forall content : string,
    Py.join LF (get_commands_from_file content) = Py.strip content
    /\ Forall (fun command => occurs LF command = false)
              (get_commands_from_file content).
Proof.
  intros content. unfold get_commands_from_file. fold LF. split.
  - apply join_split, LF_nonempty.
  - apply split_pieces_free, LF_nonempty.
Qed.

Lemma split_LF_length (s : string) :
  List.length (Py.split LF s) = S (count_LF s).
Proof.
  unfold Py.split, LF. induction s as [|c s IH]; [reflexivity|].
  cbn [Py.split_from count_LF prefix].
  destruct (ascii_dec "010" c) as [<-|Hc].
  - replace (prefix EmptyString s) with true by (destruct s; reflexivity).
    cbn [String.length Nat.sub List.length]. rewrite IH.
    rewrite Ascii.eqb_refl. reflexivity.
  - destruct (Ascii.eqb_spec c "010") as [->|_]; [congruence|].
    destruct (Py.split_from (String "010" EmptyString) s 0) as [|p ps];
      [discriminate|].
    simpl in *. exact IH.
Qed.

(** X10.  A file gives one command more than the line feeds its content
    holds once the whitespace at its two ends is removed. *)
Theorem get_commands_from_file_count :
  forall content : string,
    List.length (get_commands_from_file content)
    = S (count_LF (Py.strip content)).
Proof.
  intros content. unfold get_commands_from_file. fold LF.
  apply split_LF_length.
Qed.

Lemma rstrip_blank (s : string) : blank s = true -> Py.rstrip s = EmptyString.
Proof.
  induction s as [|c s IH]; simpl; [reflexivity|].
  intros H. apply andb_true_iff in H as [Hc Hs]. now rewrite (IH Hs), Hc.
Qed.

Lemma lstrip_append (s t : string) :
  Py.lstrip (s ++ t)
  = if blank s then Py.lstrip t else (Py.lstrip s ++ t)%string.
Proof.
  induction s as [|c s IH]; simpl; [reflexivity|].
  destruct (Py.isspace c); simpl; [exact IH|reflexivity].
Qed.

Lemma rstrip_append_blank (s w : string) :
  blank w = true -> Py.rstrip (s ++ w) = Py.rstrip s.
Proof.
  intros Hw. induction s as [|c s IH]; simpl.
  - now apply rstrip_blank.
  - now rewrite IH.
Qed.

Lemma strip_outer_blank (before content after : string) :
  blank before = true -> blank after = true ->
  Py.strip (before ++ content ++ after) = Py.strip content.
Proof.
  intros Hb Ha. unfold Py.strip.
  rewrite lstrip_append, Hb, lstrip_append.
  destruct (blank content) eqn:Hc.
  - now rewrite (lstrip_blank after Ha), (lstrip_blank content Hc).
  - now apply rstrip_append_blank.
Qed.

(** X11.  Whitespace, blank lines included, before the first command and
    after the last one changes nothing to the commands read. *)
Theorem get_commands_from_file_outer_whitespace :
  forall before content after : string,
    blank before = true -> blank after = true ->
    get_commands_from_file (before ++ content ++ after)
    = get_commands_from_file content.
Proof.
  intros before content after Hb Ha. unfold get_commands_from_file.
  now rewrite strip_outer_blank.
Qed.

Lemma get_commands_from_file_outer_whitespace_witness :
  get_commands_from_file ((LF ++ "  ") ++ ("ls" ++ LF ++ "pwd") ++ (LF ++ LF))
  = get_commands_from_file ("ls" ++ LF ++ "pwd").
Proof.
  apply (get_commands_from_file_outer_whitespace
           (LF ++ "  ") ("ls" ++ LF ++ "pwd") (LF ++ LF));
    reflexivity.
Defined.

Lemma lstrip_nonblank (s : string) :
  blank s = false -> starts_with_text (Py.lstrip s).
Proof.
  induction s as [|c s IH]; simpl; [discriminate|].
  destruct (Py.isspace c) eqn:Hc; simpl; [exact IH|].
  intros _. exists c, s. now split.
Qed.

Lemma rstrip_head (c : ascii) (r : string) :
  Py.isspace c = false -> exists r', Py.rstrip (String c r) = String c r'.
Proof.
  intros Hc. simpl. rewrite Hc. destruct (Py.rstrip r); eexists; reflexivity.
Qed.

Lemma rstrip_end (s : string) :
  Py.rstrip s = EmptyString \/ ends_with_text (Py.rstrip s).
Proof.
  induction s as [|c s IH]; simpl; [now left|].
  destruct (Py.rstrip s) as [|c' r'] eqn:E.
  - destruct (Py.isspace c) eqn:Hc; [now left|].
    right. exists EmptyString, c. now split.
  - right. destruct IH as [IH|[r [d [Hr Hd]]]]; [discriminate|].
    exists (String c r), d. simpl. now rewrite Hr.
Qed.

Lemma strip_nonblank (s : string) :
  blank s = false ->
  starts_with_text (Py.strip s) /\ ends_with_text (Py.strip s).
Proof.
  intros Hs. unfold Py.strip.
  destruct (lstrip_nonblank s Hs) as [c [r [-> Hc]]].
  destruct (rstrip_head c r Hc) as [r' Hr']. split.
  - exists c, r'. now split.
  - destruct (rstrip_end (String c r)) as [H|H]; [congruence|exact H].
Qed.

Lemma append_last_inj (a b : string) (c d : ascii) :
  (a ++ String c EmptyString)%string = (b ++ String d EmptyString)%string ->
  c = d.
Proof.
  revert b. induction a as [|x a IH]; intros b H.
  - destruct b as [|y b]; simpl in H; [congruence|].
    injection H as _ H. now destruct b.
  - destruct b as [|y b]; simpl in H.
    + injection H as _ H. now destruct a.
    + injection H as _ H. now apply (IH b).
Qed.

Lemma string_last_character (s : string) :
  s <> EmptyString -> exists r c, s = (r ++ String c EmptyString)%string.
Proof.
  induction s as [|x s IH]; [congruence|]. intros _.
  destruct s as [|y s].
  - exists EmptyString, x. reflexivity.
  - destruct IH as [r [c Hr]]; [discriminate|].
    exists (String x r), c. simpl. now rewrite Hr.
Qed.

Lemma join_last (sep : string) (pieces : list string) :
  pieces <> [] ->
  exists pre,
    Py.join sep pieces = (pre ++ last pieces EmptyString)%string
    /\ (last pieces EmptyString = EmptyString ->
        Py.join sep pieces = EmptyString
        \/ exists pre', Py.join sep pieces = (pre' ++ sep)%string).
Proof.
  induction pieces as [|p ps IH]; [congruence|]. intros _.
  destruct ps as [|p' ps].
  - exists EmptyString. split; [reflexivity|]. intros H. left. exact H.
  - destruct IH as [pre [Hjoin Hlast]]; [discriminate|].
    rewrite join_cons by discriminate.
    change (last (p :: p' :: ps) EmptyString) with (last (p' :: ps) EmptyString).
    exists (p ++ sep ++ pre)%string. split.
    + now rewrite Hjoin, !append_assoc.
    + intros H. right. destruct (Hlast H) as [E|[pre' E]]; rewrite E.
      * exists p. now rewrite append_nil_r.
      * exists (p ++ sep ++ pre')%string. now rewrite !append_assoc.
Qed.

(** X12.  When the content of a file is not whitespace only, its first
    command starts and its last command ends with a character that is not
    whitespace: neither is empty. *)
Theorem get_commands_from_file_first_and_last :
  forall content : string,
    blank content = false ->
    starts_with_text (hd EmptyString (get_commands_from_file content))
    /\ ends_with_text (last (get_commands_from_file content) EmptyString).
Proof.
  intros content Hcontent.
  destruct (strip_nonblank content Hcontent) as [Hstart Hend].
  pose proof (join_split LF (Py.strip content) LF_nonempty) as Hjoin.
  unfold get_commands_from_file. fold LF.
  set (s := Py.strip content) in *. split.
  - destruct Hstart as [c [r [Hs Hc]]]. rewrite Hs. unfold Py.split.
    assert (Hp : prefix LF (String c r) = false).
    { unfold LF. cbn [prefix].
      destruct (ascii_dec "010" c) as [<-|]; [discriminate|reflexivity]. }
    destruct (split_at_character LF c r Hp) as [p [ps [_ ->]]].
    exists c, p. now split.
  - destruct Hend as [r [c [Hs Hc]]].
    destruct (join_last LF (Py.split LF s)) as [pre [Hpre Hlast]];
      [apply split_from_nonempty|].
    rewrite Hjoin in Hpre, Hlast.
    destruct (last (Py.split LF s) EmptyString) as [|x l] eqn:El.
    + destruct (Hlast eq_refl) as [E|[pre' E]].
      * rewrite E in Hs. now destruct r.
      * rewrite E in Hs. unfold LF in Hs.
        apply append_last_inj in Hs. subst c. discriminate.
    + destruct (string_last_character (String x l)) as [r2 [c2 Hr2]];
        [discriminate|].
      exists r2, c2. split; [exact Hr2|].
      rewrite Hr2, <- append_assoc, Hs in Hpre.
      apply append_last_inj in Hpre. now subst c2.
Qed.

Lemma get_commands_from_file_first_and_last_witness :
  starts_with_text
    (hd EmptyString (get_commands_from_file (LF ++ " ls" ++ LF ++ LF ++ "pwd " ++ LF)))
  /\ ends_with_text
       (last (get_commands_from_file (LF ++ " ls" ++ LF ++ LF ++ "pwd " ++ LF))
          EmptyString).
Proof.
  apply (get_commands_from_file_first_and_last
           (LF ++ " ls" ++ LF ++ LF ++ "pwd " ++ LF)).
  reflexivity.
Defined.

(** ** [generate_name_from_command]: the two limits *)

Lemma substring_whole (s : string) (n : nat) :
  String.length s <= n -> substring 0 n s = s.
Proof.
  revert n. induction s as [|c s IH]; intros n Hn.
  - now destruct n.
  - destruct n as [|n]; [simpl in Hn; lia|]. simpl. f_equal.
    apply IH. simpl in Hn. lia.
Qed.

Lemma length_substring_start (s : string) (n : nat) :
  String.length (substring 0 n s) = Nat.min n (String.length s).
Proof.
  revert n. induction s as [|c s IH]; intros n.
  - now destruct n.
  - destruct n as [|n]; [reflexivity|]. simpl. now rewrite IH.
Qed.

Lemma substring_start_min (s : string) (n : nat) :
  substring 0 (Nat.min n (String.length s)) s = substring 0 n s.
Proof.
  destruct (Nat.le_gt_cases n (String.length s)) as [Hle|Hgt].
  - now rewrite Nat.min_l.
  - rewrite Nat.min_r by lia. rewrite substring_all.
    symmetry. apply substring_whole. lia.
Qed.

Lemma slice_from_last_characters (s : string) (m : Z) :
  m <> 0%Z ->
  Py.slice_from s (Some (Z.min (- m) m)) = last_characters (Z.abs_nat m) s.
Proof.
  intros Hm.
  replace (Z.min (- m) m) with (- Z.of_nat (Z.abs_nat m))%Z by lia.
  rewrite slice_from_negative by lia. unfold last_characters.
  destruct (Nat.leb_spec (String.length s) (Z.abs_nat m)) as [Hle|Hgt];
    [|reflexivity].
  replace (String.length s - Z.abs_nat m) with 0 by lia.
  symmetry. now apply substring_whole.
Qed.

(** X13.  A limit on the arguments counts the same with either sign: with
    [max_length_arg = m], [m] not zero, every slugified argument is cut to
    its last [|m|] characters, and kept whole when it has no more. *)
Theorem generate_name_from_command_argument_limit :
  forall (slugify : string -> string) (now : Py.struct_time) (command : string)
         (m : Z),
    m <> 0%Z ->
    generate_name_from_command slugify now command (Some m) None
    = (Py.strftime_Ymd_HMS now
       ++ Py.join "_"
            (map (fun argvalue => last_characters (Z.abs_nat m) (slugify argvalue))
                 (Py.split_ws command)))%string
    /\ generate_name_from_command slugify now command (Some (- m)%Z) None
       = generate_name_from_command slugify now command (Some m) None.
Proof.
  intros slugify now command m Hm. unfold generate_name_from_command.
  cbn [Py.slice_to]. split.
  - do 2 f_equal. apply map_ext. intros a.
    now apply slice_from_last_characters.
  - do 2 f_equal. apply map_ext. intros a. do 2 f_equal. lia.
Qed.

Lemma generate_name_from_command_argument_limit_witness :
  generate_name_from_command plain
    {| Py.tm_year := 2014; Py.tm_mon := 7; Py.tm_mday := 9;
       Py.tm_hour := 16; Py.tm_min := 5; Py.tm_sec := 0 |}
    "run 12345678 ab" (Some (-4)%Z) None
  = "2014-07-09_16-05-00_run_5678_ab".
Proof.
  apply (proj1 (generate_name_from_command_argument_limit plain
                  {| Py.tm_year := 2014; Py.tm_mon := 7; Py.tm_mday := 9;
                     Py.tm_hour := 16; Py.tm_min := 5; Py.tm_sec := 0 |}
                  "run 12345678 ab" (-4)%Z ltac:(discriminate))).
Defined.

Lemma slice_to_start (name : string) (k : Z) :
  (0 <= k)%Z -> Py.slice_to name (Some k) = substring 0 (Z.to_nat k) name.
Proof.
  intros Hk. unfold Py.slice_to, Py.slice, Py.clamp. rewrite Nat.sub_0_r.
  destruct (Z.ltb_spec k 0) as [|_]; [lia|].
  apply substring_start_min.
Qed.

(** X14.  With [max_length = k], the name is the start of the name made
    without that limit: its first [k] characters when [k] is not negative,
    so that it is never longer than [k]; all but its last [-k] characters
    when [k] is negative. *)
Theorem generate_name_from_command_max_length :
  forall (slugify : string -> string) (now : Py.struct_time) (command : string)
         (max_length_arg : option Z) (k : Z),
    ((0 <= k)%Z ->
     generate_name_from_command slugify now command max_length_arg (Some k)
     = substring 0 (Z.to_nat k)
         (generate_name_from_command slugify now command max_length_arg None)
     /\ String.length
          (generate_name_from_command slugify now command max_length_arg (Some k))
        <= Z.to_nat k)
    /\ ((k < 0)%Z ->
        generate_name_from_command slugify now command max_length_arg (Some k)
        = substring 0
            (String.length
               (generate_name_from_command slugify now command max_length_arg None)
             - Z.to_nat (- k))
            (generate_name_from_command slugify now command max_length_arg None)).
Proof.
  intros slugify now command max_length_arg k.
  unfold generate_name_from_command. cbn [Py.slice_to].
  set (name := (_ ++ _)%string).
  unfold Py.slice, Py.clamp. rewrite Nat.sub_0_r. split.
  - intros Hk. destruct (Z.ltb_spec k 0) as [|_]; [lia|].
    rewrite substring_start_min. split; [reflexivity|].
    rewrite length_substring_start. lia.
  - intros Hk. destruct (Z.ltb_spec k 0) as [_|]; [|lia].
    f_equal. lia.
Qed.

Lemma generate_name_from_command_max_length_witness :
  generate_name_from_command plain
    {| Py.tm_year := 2014; Py.tm_mon := 7; Py.tm_mday := 9;
       Py.tm_hour := 16; Py.tm_min := 5; Py.tm_sec := 0 |}
    "run 12345678" None (Some 23%Z)
  = "2014-07-09_16-05-00_run"
  /\ generate_name_from_command plain
       {| Py.tm_year := 2014; Py.tm_mon := 7; Py.tm_mday := 9;
          Py.tm_hour := 16; Py.tm_min := 5; Py.tm_sec := 0 |}
       "run 12345678" None (Some (-9)%Z)
     = "2014-07-09_16-05-00_run".
Proof.
  split.
  - apply (proj1 (proj1 (generate_name_from_command_max_length plain
                           {| Py.tm_year := 2014; Py.tm_mon := 7; Py.tm_mday := 9;
                              Py.tm_hour := 16; Py.tm_min := 5; Py.tm_sec := 0 |}
                           "run 12345678" None 23%Z) ltac:(lia))).
  - apply (proj2 (generate_name_from_command_max_length plain
                    {| Py.tm_year := 2014; Py.tm_mon := 7; Py.tm_mday := 9;
                       Py.tm_hour := 16; Py.tm_min := 5; Py.tm_sec := 0 |}
                    "run 12345678" None (-9)%Z) ltac:(lia)).
Defined.

Lemma split_ws_blank (s : string) : blank s = true -> Py.split_ws s = [].
Proof.
  induction s as [|c s IH]; simpl; [reflexivity|].
  intros H. apply andb_true_iff in H as [Hc Hs]. now rewrite Hc, IH.
Qed.

(** X15.  For a command that is empty or whitespace only, the name is the
    time stamp alone, cut by [max_length]; [slugify] and [max_length_arg]
    play no part. *)
Theorem generate_name_from_command_blank :
  forall (slugify : string -> string) (now : Py.struct_time) (command : string)
         (max_length_arg max_length : option Z),
    blank command = true ->
    generate_name_from_command slugify now command max_length_arg max_length
    = Py.slice_to (Py.strftime_Ymd_HMS now) max_length.
Proof.
  intros slugify now command max_length_arg max_length Hblank.
  unfold generate_name_from_command.
  rewrite split_ws_blank by assumption. cbn [map].
  change (Py.join "_" []) with EmptyString. now rewrite append_nil_r.
Qed.

Lemma generate_name_from_command_blank_witness :
  generate_name_from_command plain
    {| Py.tm_year := 2014; Py.tm_mon := 7; Py.tm_mday := 9;
       Py.tm_hour := 16; Py.tm_min := 5; Py.tm_sec := 0 |}
    "   " (Some 3%Z) (Some 10%Z)
  = "2014-07-09".
Proof.
  apply (generate_name_from_command_blank plain
           {| Py.tm_year := 2014; Py.tm_mon := 7; Py.tm_mday := 9;
              Py.tm_hour := 16; Py.tm_min := 5; Py.tm_sec := 0 |}
           "   " (Some 3%Z) (Some 10%Z)).
  reflexivity.
Defined.

Lemma pad2_length (n : nat) : n < 100 -> String.length (Py.pad2 n) = 2.
Proof.
  intros Hn.
  assert (H : forallb (fun n => (String.length (Py.pad2 n) =? 2)%nat) (seq 0 100) = true)
    by (vm_compute; reflexivity).
  apply Nat.eqb_eq. eapply forallb_forall in H; [exact H|].
  apply in_seq. lia.
Qed.

Lemma digits_year_length (y : nat) :
  1000 <= y < 10 * 1000 -> String.length (Py.digits y) = 4.
Proof.
  intros Hy.
  assert (H : forallb (fun y => (String.length (Py.digits y) =? 4)%nat)
                      (seq 1000 (9 * 1000)) = true)
    by (vm_compute; reflexivity).
  apply Nat.eqb_eq. eapply forallb_forall in H; [exact H|].
  apply in_seq. lia.
Qed.

Lemma strftime_length (now : Py.struct_time) :
  four_digit_year now = true -> String.length (Py.strftime_Ymd_HMS now) = 20.
Proof.
  unfold four_digit_year. intros H.
  repeat (apply andb_true_iff in H as [H ?]).
  repeat match goal with
         | H : Nat.ltb _ _ = true |- _ => apply Nat.ltb_lt in H
         | H : Nat.leb _ _ = true |- _ => apply Nat.leb_le in H
         end.
  unfold Py.strftime_Ymd_HMS.
  repeat (rewrite length_append; cbn [String.length]).
  rewrite digits_year_length by lia.
  rewrite !pad2_length by lia. reflexivity.
Qed.

Lemma substring_start_append (a b : string) (n : nat) :
  n <= String.length a -> substring 0 n (a ++ b) = substring 0 n a.
Proof.
  revert n. induction a as [|c a IH]; intros n Hn.
  - simpl in Hn. assert (n = 0) by lia. subst n. now destruct b.
  - destruct n as [|n]; [reflexivity|]. simpl. f_equal.
    apply IH. simpl in Hn. lia.
Qed.

(** X16.  For a time of the years 1000 to 9999 the time stamp has 20
    characters and they are the first 20 of the name; so a [max_length] of
    20 or less leaves nothing of the command in the name. *)
Theorem generate_name_from_command_time_stamp :
  forall (slugify : string -> string) (now : Py.struct_time) (command : string)
         (max_length_arg : option Z),
    four_digit_year now = true ->
    String.length (Py.strftime_Ymd_HMS now) = 20
    /\ substring 0 20
         (generate_name_from_command slugify now command max_length_arg None)
       = Py.strftime_Ymd_HMS now
    /\ (forall k : Z,
           (0 <= k <= 20)%Z ->
           generate_name_from_command slugify now command max_length_arg (Some k)
           = substring 0 (Z.to_nat k) (Py.strftime_Ymd_HMS now)).
Proof.
  intros slugify now command max_length_arg Hnow.
  pose proof (strftime_length now Hnow) as Hlen.
  split; [exact Hlen|]. split.
  - unfold generate_name_from_command. cbn [Py.slice_to].
    rewrite substring_start_append by lia.
    rewrite <- Hlen. apply substring_all.
  - intros k Hk. unfold generate_name_from_command.
    rewrite slice_to_start by lia.
    apply substring_start_append. lia.
Qed.

Lemma generate_name_from_command_time_stamp_witness :
  generate_name_from_command plain
    {| Py.tm_year := 2014; Py.tm_mon := 7; Py.tm_mday := 9;
       Py.tm_hour := 16; Py.tm_min := 5; Py.tm_sec := 0 |}
    "run 12345678" (Some 4%Z) (Some 13%Z)
  = "2014-07-09_16".
Proof.
  apply (proj2 (proj2 (generate_name_from_command_time_stamp plain
                         {| Py.tm_year := 2014; Py.tm_mon := 7; Py.tm_mday := 9;
                            Py.tm_hour := 16; Py.tm_min := 5; Py.tm_sec := 0 |}
                         "run 12345678" (Some 4%Z) eq_refl)) 13%Z).
  lia.
Defined.

(** ** [get_available_queues]: the file read *)

Lemma bind_Ok (A : Type) (r : result A) : (x <- r ;; Ok x) = r.
Proof. now destruct r. Qed.

Lemma endswith_slash_append (a b : string) :
  b <> EmptyString -> Py.endswith_slash (a ++ b) = Py.endswith_slash b.
Proof.
  intros Hb. induction a as [|c a IH]; [reflexivity|].
  change ((String c a ++ b)%string) with (String c (a ++ b)).
  cbn [Py.endswith_slash].
  destruct (a ++ b)%string as [|d r] eqn:E; [|exact IH].
  destruct a; simpl in E; [congruence|discriminate].
Qed.

Lemma startswith_slash_append (a b : string) :
  a <> EmptyString -> Py.startswith_slash (a ++ b) = Py.startswith_slash a.
Proof. destruct a; [congruence|reflexivity]. Qed.

Lemma append_nonempty (a b : string) :
  b <> EmptyString -> (a ++ b)%string <> EmptyString.
Proof. destruct a; [trivial|discriminate]. Qed.

(** X17.  For a package directory that is not empty and does not end with a
    slash, and a cluster name that does not start with one, the queues are
    those of the file [<directory>/config/<cluster>.json], and [{}] when
    there is no such file: nothing else of the file system is looked at. *)
Theorem get_available_queues_config_file :
  forall (json : Type) (smartdispatch_dir : string) (isfile : string -> bool)
         (load_dict_from_json_file : string -> result (list (string * json)))
         (cluster_name : string),
    smartdispatch_dir <> EmptyString ->
    Py.endswith_slash smartdispatch_dir = false ->
    Py.startswith_slash cluster_name = false ->
    get_available_queues json smartdispatch_dir isfile load_dict_from_json_file
      (Some cluster_name)
    = if isfile (smartdispatch_dir ++ "/config/" ++ cluster_name ++ ".json")%string
      then load_dict_from_json_file
             (smartdispatch_dir ++ "/config/" ++ cluster_name ++ ".json")%string
      else Ok [].
Proof.
  intros json dir isfile load name Hdir Hend Hstart.
  unfold get_available_queues.
  assert (Hconfig : Py.path_join dir "config" = (dir ++ "/config")%string).
  { unfold Py.path_join. cbn [Py.startswith_slash].
    destruct (String.eqb_spec dir EmptyString) as [|_]; [contradiction|].
    now rewrite Hend. }
  assert (Hpath : Py.path_join (dir ++ "/config") (name ++ ".json")
                  = (dir ++ "/config/" ++ name ++ ".json")%string).
  { unfold Py.path_join.
    assert (Hs : Py.startswith_slash (name ++ ".json") = false).
    { destruct name as [|c name]; [reflexivity|exact Hstart]. }
    rewrite Hs.
    destruct (String.eqb_spec (dir ++ "/config") EmptyString) as [E|_].
    - exfalso. revert E. apply append_nonempty. discriminate.
    - rewrite endswith_slash_append by discriminate. cbn [orb Py.endswith_slash].
      simpl. now rewrite !append_assoc. }
  rewrite Hconfig, Hpath, bind_Ok.
  now destruct (isfile _).
Qed.

Lemma get_available_queues_config_file_witness :
  get_available_queues nat "/opt/smartdispatch"
    (fun path => String.eqb path "/opt/smartdispatch/config/guillimin.json")
    (fun path => Ok [("sw", 12)]) (Some "guillimin")
  = Ok [("sw", 12)]
  /\ get_available_queues nat "/opt/smartdispatch"
       (fun path => String.eqb path "/opt/smartdispatch/config/guillimin.json")
       (fun path => Ok [("sw", 12)]) (Some "mammouth")
     = Ok [].
Proof.
  split.
  - apply (get_available_queues_config_file nat "/opt/smartdispatch"
             (fun path => String.eqb path "/opt/smartdispatch/config/guillimin.json")
             (fun path => Ok [("sw", 12)]) "guillimin");
      [discriminate | reflexivity | reflexivity].
  - apply (get_available_queues_config_file nat "/opt/smartdispatch"
             (fun path => String.eqb path "/opt/smartdispatch/config/guillimin.json")
             (fun path => Ok [("sw", 12)]) "mammouth");
      [discriminate | reflexivity | reflexivity].
Defined.

(** X18.  A cluster name that starts with a slash is taken as the path of
    the file itself: whatever the package directory, the file looked at and
    loaded is [<cluster>.json], outside the [config] directory. *)
Theorem get_available_queues_absolute_cluster_name :
  forall (json : Type) (smartdispatch_dir : string) (isfile : string -> bool)
         (load_dict_from_json_file : string -> result (list (string * json)))
         (cluster_name : string),
    Py.startswith_slash cluster_name = true ->
    get_available_queues json smartdispatch_dir isfile load_dict_from_json_file
      (Some cluster_name)
    = if isfile (cluster_name ++ ".json")%string
      then load_dict_from_json_file (cluster_name ++ ".json")%string
      else Ok [].
Proof.
  intros json dir isfile load name Hstart.
  unfold get_available_queues.
  assert (Hpath : forall a, Py.path_join a (name ++ ".json")
                            = (name ++ ".json")%string).
  { intros a. unfold Py.path_join.
    destruct name as [|c name]; [discriminate|].
    cbn [append Py.startswith_slash] in *. now rewrite Hstart. }
  rewrite Hpath, bind_Ok.
  now destruct (isfile _).
Qed.

Lemma get_available_queues_absolute_cluster_name_witness :
  get_available_queues nat "/opt/smartdispatch"
    (fun path => String.eqb path "/tmp/mine.json")
    (fun path => Ok [("q", 1)]) (Some "/tmp/mine")
  = Ok [("q", 1)].
Proof.
  apply (get_available_queues_absolute_cluster_name nat "/opt/smartdispatch"
           (fun path => String.eqb path "/tmp/mine.json")
           (fun path => Ok [("q", 1)]) "/tmp/mine").
  reflexivity.
Defined.

(** ** [generate_name_from_command]: whitespace between the arguments *)

Lemma split_ws_starts_with_text (c : ascii) (r : string) :
  Py.isspace c = false -> Py.split_ws (String c r) <> [].
Proof.
  intros Hc. cbn [Py.split_ws]. rewrite Hc.
  destruct r as [|d r]; [discriminate|].
  destruct (Py.isspace d); [discriminate|].
  destruct (Py.split_ws (String d r)); discriminate.
Qed.

Lemma split_ws_append_space (a : string) (c : ascii) (r : string) :
  Py.isspace c = true ->
  Py.split_ws (a ++ String c r) = Py.split_ws a ++ Py.split_ws r.
Proof.
  intros Hc. induction a as [|x a IH].
  - simpl. now rewrite Hc.
  - change ((String x a ++ String c r)%string) with (String x (a ++ String c r)).
    cbn [Py.split_ws]. destruct (Py.isspace x) eqn:Hx; [exact IH|].
    destruct a as [|d a].
    + cbn [append]. rewrite Hc. cbn [Py.split_ws]. rewrite Hc. reflexivity.
    + change ((String d a ++ String c r)%string)
        with (String d (a ++ String c r)) in *.
      cbv iota. destruct (Py.isspace d) eqn:Hd.
      * rewrite IH. reflexivity.
      * rewrite IH.
        destruct (Py.split_ws (String d a)) as [|w ws] eqn:E.
        -- now apply split_ws_starts_with_text in E.
        -- reflexivity.
Qed.

Lemma split_ws_append_blank (a w b : string) :
  blank w = true -> w <> EmptyString ->
  Py.split_ws (a ++ w ++ b) = Py.split_ws a ++ Py.split_ws b.
Proof.
  intros Hw Hne. destruct w as [|c w]; [congruence|].
  simpl in Hw. apply andb_true_iff in Hw as [Hc Hw].
  change ((String c w ++ b)%string) with (String c (w ++ b)).
  rewrite split_ws_append_space by assumption. f_equal.
  clear Hne. induction w as [|d w IH]; [reflexivity|].
  simpl in Hw. apply andb_true_iff in Hw as [Hd Hw].
  simpl. rewrite Hd. now apply IH.
Qed.

(** X19.  Only the arguments of a command reach its name: whatever
    whitespace stands between two parts of the command, the name is the
    same as with a single space. *)
Theorem generate_name_from_command_whitespace :
  forall (slugify : string -> string) (now : Py.struct_time)
         (before gap after : string) (max_length_arg max_length : option Z),
    blank gap = true -> gap <> EmptyString ->
    generate_name_from_command slugify now (before ++ gap ++ after)
      max_length_arg max_length
    = generate_name_from_command slugify now (before ++ " " ++ after)
        max_length_arg max_length.
Proof.
  intros slugify now before gap after max_length_arg max_length Hgap Hne.
  unfold generate_name_from_command.
  rewrite (split_ws_append_blank before gap after Hgap Hne).
  now rewrite (split_ws_append_blank before " " after) by (reflexivity || discriminate).
Qed.

Lemma generate_name_from_command_whitespace_witness :
  generate_name_from_command plain
    {| Py.tm_year := 2014; Py.tm_mon := 7; Py.tm_mday := 9;
       Py.tm_hour := 16; Py.tm_min := 5; Py.tm_sec := 0 |}
    ("run" ++ String "009" "  " ++ "fast") None None
  = generate_name_from_command plain
      {| Py.tm_year := 2014; Py.tm_mon := 7; Py.tm_mday := 9;
         Py.tm_hour := 16; Py.tm_min := 5; Py.tm_sec := 0 |}
      ("run" ++ " " ++ "fast") None None.
Proof.
  apply (generate_name_from_command_whitespace plain
           {| Py.tm_year := 2014; Py.tm_mon := 7; Py.tm_mday := 9;
              Py.tm_hour := 16; Py.tm_min := 5; Py.tm_sec := 0 |}
           "run" (String "009" "  ") "fast" None None);
    [reflexivity | discriminate].
Defined.

(** ** [unfold_command]: repeated alternatives *)

(** X20.  Nothing is removed from the result: with one folded argument, an
    alternative written twice gives the same command twice. *)
Theorem unfold_command_keeps_duplicates :
  forall (encode decode : string -> string) (templates : registry)
         (command : string) (m : Match) (alts : list string),
    templates <> [] ->
    finditer templates (encode command) = [m] ->
    alternatives templates (encode command) m = Ok alts ->
    ~ NoDup alts ->
    exists commands,
      unfold_command encode decode templates command = Ok commands
      /\ List.length commands = List.length alts
      /\ ~ NoDup commands.
Proof.
  intros encode decode templates command m alts Hne Hfind Halts Hdup.
  rewrite unfold_command_segments by assumption.
  rewrite Hfind. unfold alternatives in Halts. cbn [segments].
  destruct (lookup (m_name m) templates) as [arg|]; [|discriminate].
  rewrite Halts. cbn [bind map].
  rewrite combinations_one_pool, map_map.
  eexists; split; [reflexivity|]. split; [apply length_map|].
  intros H. apply Hdup. eapply NoDup_map_inv. exact H.
Qed.

Lemma unfold_command_keeps_duplicates_witness :
  exists commands,
    unfold_command plain plain argument_templates "echo [a b a]" = Ok commands
    /\ List.length commands = 3
    /\ ~ NoDup commands.
Proof.
  apply (unfold_command_keeps_duplicates plain plain argument_templates
           "echo [a b a]" {| m_start := 5; m_end := 12; m_name := "list" |}
           ["a"; "b"; "a"]);
    [discriminate | reflexivity | reflexivity |].
  intros H. inversion H as [|x l Hin _]; subst.
  apply Hin. right; left; reflexivity.
Defined.

(** ** [get_commands_from_file]: reading back what was written *)

Lemma rstrip_ends_with_text (s : string) :
  ends_with_text s -> Py.rstrip s = s.
Proof.
  intros [r [c [-> Hc]]]. induction r as [|x r IH].
  - simpl. now rewrite Hc.
  - change ((String x r ++ String c EmptyString)%string)
      with (String x (r ++ String c EmptyString)).
    cbn [Py.rstrip]. rewrite IH.
    destruct (r ++ String c EmptyString)%string eqn:E; [|reflexivity].
    now destruct r.
Qed.

Lemma strip_text (s : string) :
  starts_with_text s -> ends_with_text s -> Py.strip s = s.
Proof.
  intros [c [r [-> Hc]]] Hend. unfold Py.strip. cbn [Py.lstrip]. rewrite Hc.
  now apply rstrip_ends_with_text.
Qed.

(** X21.  Commands written one on each line, with or without a line feed
    after the last one, are read back as they were, provided no command
    holds a line feed, the first one starts and the last one ends with a
    character that is not whitespace. *)
Theorem get_commands_from_file_reads_back :
  forall commands : list string,
    Forall (fun command => occurs LF command = false) commands ->
    starts_with_text (hd EmptyString commands) ->
    ends_with_text (last commands EmptyString) ->
    get_commands_from_file (Py.join LF commands) = commands
    /\ get_commands_from_file (Py.join LF commands ++ LF) = commands.
Proof.
  intros commands Hfree Hstart Hend.
  assert (Hne : commands <> []).
  { destruct commands; [|discriminate]. destruct Hstart as [c [r [H _]]].
    discriminate. }
  assert (Hs : starts_with_text (Py.join LF commands)).
  { destruct commands as [|p ps]; [congruence|].
    destruct Hstart as [c [r [Hp Hc]]]. simpl in Hp. subst p.
    rewrite join_cons_character. eexists; eexists; split; [reflexivity|exact Hc]. }
  assert (He : ends_with_text (Py.join LF commands)).
  { destruct (join_last LF commands Hne) as [pre [Hpre _]].
    destruct Hend as [r [c [Hr Hc]]].
    exists (pre ++ r)%string, c. split; [|exact Hc].
    now rewrite Hpre, Hr, append_assoc. }
  assert (Hread : get_commands_from_file (Py.join LF commands) = commands).
  { unfold get_commands_from_file. fold LF. rewrite strip_text by assumption.
    exact (split_join LF LF_nonempty newline_unbordered commands Hne Hfree). }
  split; [exact Hread|].
  rewrite <- Hread at 2.
  rewrite <- (append_nil_r (Py.join LF commands)) at 2.
  change (Py.join LF commands ++ LF)%string
    with (EmptyString ++ Py.join LF commands ++ LF)%string.
  change (Py.join LF commands ++ EmptyString)%string
    with (EmptyString ++ Py.join LF commands ++ EmptyString)%string.
  unfold get_commands_from_file.
  now rewrite !strip_outer_blank by reflexivity.
Qed.

Lemma get_commands_from_file_reads_back_witness :
  get_commands_from_file (Py.join LF ["ls -l"; EmptyString; " pwd"]) = ["ls -l"; EmptyString; " pwd"]
  /\ get_commands_from_file (Py.join LF ["ls -l"; EmptyString; " pwd"] ++ LF)
     = ["ls -l"; EmptyString; " pwd"].
Proof.
  apply (get_commands_from_file_reads_back ["ls -l"; EmptyString; " pwd"]).
  - repeat constructor.
  - exists "l"%char, "s -l". split; reflexivity.
  - exists " pw", "d"%char. split; reflexivity.
Defined.
